(** * hadoop-galaxy: pathsets, URI resolution and the Hadoop tool adapter

    A shallow embedding of [hadoop_galaxy/make_pathset.py] and
    [hadoop_galaxy/__init__.py], with the properties of their specification
    stated and proved over it.

    Python 2 [str] values are byte strings: they are modelled as [string].
    Exceptions are values of [exn]; a computation that may raise returns
    [result A].  Code that touches the file system or runs a process threads
    an explicit store. *)

From Stdlib Require Import Ascii String List ZArith Lia Bool.
From stdpp Require Import base option list strings gmap pretty.

Local Open Scope string_scope.

(** ** Python's [str] methods used by the sources *)

Module Py.

(** [len(s)] *)
Definition len (s : string) : nat := String.length s.

(** [s.startswith(p)] *)
Fixpoint startswith (s p : string) {struct p} : bool :=
  match p, s with
  | EmptyString, _ => true
  | String _ _, EmptyString => false
  | String b p', String a s' => if Ascii.eqb a b then startswith s' p' else false
  end.

(** [s[i:]] *)
Fixpoint from (i : nat) (s : string) : string :=
  match i, s with
  | O, _ => s
  | S _, EmptyString => EmptyString
  | S i', String _ s' => from i' s'
  end.

(** [s[:i]] *)
Fixpoint upto (i : nat) (s : string) : string :=
  match i, s with
  | O, _ => EmptyString
  | S _, EmptyString => EmptyString
  | S i', String a s' => String a (upto i' s')
  end.

(** [s.find(c)] for a one-character [c]: [None] stands for Python's -1. *)
Fixpoint find (c : ascii) (s : string) : option nat :=
  match s with
  | EmptyString => None
  | String a s' => if Ascii.eqb a c then Some O else S <$> find c s'
  end.

(** [s.rfind(c)] for a one-character [c]. *)
Fixpoint rfind (c : ascii) (s : string) : option nat :=
  match s with
  | EmptyString => None
  | String a s' =>
      match rfind c s' with
      | Some i => Some (S i)
      | None => if Ascii.eqb a c then Some O else None
      end
  end.

(** [s.find(c, start)] *)
Definition find_from (c : ascii) (start : nat) (s : string) : option nat :=
  (fun i => start + i) <$> find c (from start s).

(** [c in s] *)
Definition contains (c : ascii) (s : string) : bool :=
  match find c s with Some _ => true | None => false end.

(** [s.endswith(c)] for a one-character [c]. *)
Fixpoint endswith (s : string) (c : ascii) : bool :=
  match s with
  | EmptyString => false
  | String a EmptyString => Ascii.eqb a c
  | String _ s' => endswith s' c
  end.

(** [s.rstrip(c)] for a one-character [c]. *)
Fixpoint rstrip (c : ascii) (s : string) : string :=
  match s with
  | EmptyString => EmptyString
  | String a s' =>
      match rstrip c s' with
      | EmptyString => if Ascii.eqb a c then EmptyString else String a EmptyString
      | r => String a r
      end
  end.

(** [s.split(c)] for a one-character separator: never the empty list. *)
Fixpoint split (c : ascii) (s : string) : list string :=
  match s with
  | EmptyString => [EmptyString]
  | String a s' =>
      if Ascii.eqb a c then EmptyString :: split c s'
      else match split c s' with
           | [] => [String a EmptyString]
           | w :: ws => String a w :: ws
           end
  end.

(** [s.split(c, 1)]: the part before the first [c] and the part after it. *)
Definition split1 (c : ascii) (s : string) : string * string :=
  match find c s with
  | Some i => (upto i s, from (S i) s)
  | None => (s, EmptyString)
  end.

(** [sep.join(ws)] for a one-character [sep]. *)
Fixpoint join (sep : ascii) (ws : list string) : string :=
  match ws with
  | [] => EmptyString
  | [w] => w
  | w :: ws' => w ++ String sep (join sep ws')
  end.

(** [c * n] *)
Fixpoint repeat (c : ascii) (n : nat) : string :=
  match n with O => EmptyString | S n' => String c (repeat c n') end.

Definition is_upper (a : ascii) : bool :=
  let n := nat_of_ascii a in (65 <=? n)%nat && (n <=? 90)%nat.
Definition is_lower (a : ascii) : bool :=
  let n := nat_of_ascii a in (97 <=? n)%nat && (n <=? 122)%nat.
Definition is_digit (a : ascii) : bool :=
  let n := nat_of_ascii a in (48 <=? n)%nat && (n <=? 57)%nat.

Definition lower_char (a : ascii) : ascii :=
  if is_upper a then ascii_of_nat (nat_of_ascii a + 32) else a.

(** [s.lower()] *)
Fixpoint lower (s : string) : string :=
  match s with
  | EmptyString => EmptyString
  | String a s' => String (lower_char a) (lower s')
  end.

(** [all(p(c) for c in s)] *)
Fixpoint all (p : ascii -> bool) (s : string) : bool :=
  match s with
  | EmptyString => true
  | String a s' => p a && all p s'
  end.

(** The characters [str.rstrip()] strips when it is given no argument:
    space, tab, newline, carriage return, vertical tab and form feed. *)
Definition is_space (a : ascii) : bool :=
  Ascii.eqb a " " || Ascii.eqb a "009" || Ascii.eqb a "010" || Ascii.eqb a "013"
  || Ascii.eqb a "011" || Ascii.eqb a "012".

(** [s.rstrip()] *)
Fixpoint rstrip_ws (s : string) : string :=
  match s with
  | EmptyString => EmptyString
  | String a s' =>
      match rstrip_ws s' with
      | EmptyString => if is_space a then EmptyString else String a EmptyString
      | r => String a r
      end
  end.

(** Truth value of a string: the empty string is false. *)
Definition truthy (s : string) : bool :=
  match s with EmptyString => false | _ => true end.

(** Truth value of a value that may be [None]. *)
Definition truthy_opt (o : option string) : bool :=
  match o with Some s => truthy s | None => false end.

End Py.

(** ** [posixpath] (the [os.path] of a POSIX system) *)

Module os_path.

(** [os.path.isabs] *)
Definition isabs (p : string) : bool := Py.startswith p "/".

(** [os.path.basename]: what follows the last slash. *)
Definition basename (p : string) : string :=
  match Py.rfind "/" p with
  | Some i => Py.from (S i) p
  | None => p
  end.

(** [os.path.dirname]: what precedes the last slash, trailing slashes
    stripped unless the head is made of slashes only. *)
Definition dirname (p : string) : string :=
  let head := match Py.rfind "/" p with
              | Some i => Py.upto (S i) p
              | None => EmptyString
              end in
  if Py.truthy head && negb (String.eqb head (Py.repeat "/" (Py.len head)))
  then Py.rstrip "/" head else head.

(** [os.path.join(a, b)] *)
Definition join (a b : string) : string :=
  if Py.startswith b "/" then b
  else if String.eqb a "" || Py.endswith a "/" then a ++ b
  else a ++ "/" ++ b.

(** The loop of [normpath] over the components, [new_comps] kept reversed. *)
Fixpoint normpath_comps (initial_slashes : nat) (comps new_comps : list string)
  : list string :=
  match comps with
  | [] => rev new_comps
  | comp :: rest =>
      if String.eqb comp "" || String.eqb comp "." then
        normpath_comps initial_slashes rest new_comps
      else if negb (String.eqb comp "..")
              || (Nat.eqb initial_slashes 0 && match new_comps with [] => true | _ => false end)
              || match new_comps with last :: _ => String.eqb last ".." | [] => false end
      then normpath_comps initial_slashes rest (comp :: new_comps)
      else match new_comps with
           | _ :: popped => normpath_comps initial_slashes rest popped
           | [] => normpath_comps initial_slashes rest new_comps
           end
  end.

(** [os.path.normpath] *)
Definition normpath (path : string) : string :=
  if String.eqb path "" then "."
  else
    let initial_slashes :=
      if Py.startswith path "/" then
        if Py.startswith path "//" && negb (Py.startswith path "///") then 2 else 1
      else 0 in
    let comps := normpath_comps initial_slashes (Py.split "/" path) [] in
    let path' := Py.repeat "/" initial_slashes ++ Py.join "/" comps in
    if Py.truthy path' then path' else ".".

(** [os.path.abspath], with the current directory [os.getcwd()] explicit. *)
Definition abspath (cwd path : string) : string :=
  normpath (if isabs path then path else join cwd path).

End os_path.

(** ** Exceptions and results *)

(** The exception classes the two modules raise or let through. *)
Inductive exn :=
| ValueError (msg : string)
| RuntimeError (msg : string)
| IOError (msg : string)
| OSError (msg : string)
| AttributeError (msg : string)
| YAMLError (msg : string)
| UnboundLocalError (msg : string)
| CalledProcessError (returncode : Z)
| SystemExit (code : Z).

Inductive result (A : Type) :=
| Ok (a : A)
| Raise (e : exn).
Arguments Ok {A} a.
Arguments Raise {A} e.

Global Instance result_ret : MRet result := fun A a => Ok a.
Global Instance result_bind : MBind result := fun A B f m =>
  match m with Ok a => f a | Raise e => Raise e end.
Global Instance result_fmap : FMap result := fun A B f m =>
  match m with Ok a => Ok (f a) | Raise e => Raise e end.

(** [map(f, xs)] for an [f] that may raise: left to right, the first
    exception ends the traversal. *)
Fixpoint map_result {A B} (f : A -> result B) (xs : list A) : result (list B) :=
  match xs with
  | [] => Ok []
  | x :: xs' => y ← f x; ys ← map_result f xs'; Ok (y :: ys)
  end.

Definition is_ok {A} (r : result A) : bool :=
  match r with Ok _ => true | Raise _ => false end.

(** ** [urlparse] (Python 2.7) *)

Module urlparse.

Record ParseResult := {
  scheme : string;
  netloc : string;
  path : string;
  params : string;
  query : string;
  fragment : string
}.

Definition uses_params : list string :=
  ["ftp"; "hdl"; "prospero"; "http"; "imap"; "https"; "shttp"; "rtsp";
   "rtspu"; "sip"; "sips"; "mms"; ""; "sftp"; "tel"].

(** [scheme_chars]: letters, digits and [+-.] *)
Definition scheme_char (a : ascii) : bool :=
  Py.is_lower a || Py.is_upper a || Py.is_digit a
  || Ascii.eqb a "+" || Ascii.eqb a "-" || Ascii.eqb a ".".

Definition in_list (s : string) (l : list string) : bool :=
  existsb (String.eqb s) l.

(** [_splitnetloc(url, 2)] *)
Definition _splitnetloc (url : string) : string * string :=
  let start := 2 in
  let upd c delim :=
    match Py.find_from c start url with
    | Some w => Nat.min delim w
    | None => delim
    end in
  let delim := upd "#"%char (upd "?"%char (upd "/"%char (Py.len url))) in
  (Py.from start (Py.upto delim url), Py.from delim url).

(** [_splitparams(url)] *)
Definition _splitparams (url : string) : string * string :=
  let cut i := (Py.upto i url, Py.from (S i) url) in
  match Py.rfind "/" url with
  | Some j =>
      match Py.find_from ";" j url with
      | Some i => cut i
      | None => (url, "")
      end
  | None =>
      (* [url.find(';')] is not -1 here: the caller checked [';' in url] *)
      match Py.find ";" url with
      | Some i => cut i
      | None => (Py.upto (Py.len url - 1) url, url)
      end
  end.

(** The scheme recognised in front of the first colon, and the rest. *)
Definition split_scheme (url : string) : string * string :=
  match Py.find ":" url with
  | Some (S i') =>
      let i := S i' in
      let head := Py.upto i url in
      let rest := Py.from (S i) url in
      if String.eqb head "http" then (Py.lower head, rest)
      else if Py.all scheme_char head
              && (negb (Py.truthy rest) || negb (Py.all Py.is_digit rest))
      then (Py.lower head, rest)
      else ("", url)
  | _ => ("", url)
  end.

(** [urlsplit(url)], with its five results in a [ParseResult] whose
    [params] is still empty. *)
Definition urlsplit (url : string) : result ParseResult :=
  let '(scheme, url) := split_scheme url in
  '(netloc, url) ←
    (if String.eqb (Py.upto 2 url) "//" then
       let '(netloc, url) := _splitnetloc url in
       if (Py.contains "[" netloc && negb (Py.contains "]" netloc))
          || (Py.contains "]" netloc && negb (Py.contains "[" netloc))
       then Raise (ValueError "Invalid IPv6 URL")
       else Ok (netloc, url)
     else Ok ("", url));
  let '(url, fragment) :=
    if Py.contains "#" url then Py.split1 "#" url else (url, "") in
  let '(url, query) :=
    if Py.contains "?" url then Py.split1 "?" url else (url, "") in
  Ok {| scheme := scheme; netloc := netloc; path := url; params := "";
        query := query; fragment := fragment |}.

(** [urlparse(url)] *)
Definition urlparse (url : string) : result ParseResult :=
  r ← urlsplit url;
  let '(url, params) :=
    if in_list (scheme r) uses_params && Py.contains ";" (path r)
    then _splitparams (path r) else (path r, "") in
  Ok {| scheme := scheme r; netloc := netloc r; path := url; params := params;
        query := query r; fragment := fragment r |}.

End urlparse.

(** ** [hadoop_galaxy/make_pathset.py] *)

Module make_pathset.

(** [class Uri]: the three attributes of the object. *)
Record Uri := {
  scheme : string;
  netloc : string;
  path : string
}.

(** [Uri.__init__(scheme, netloc, path)]: the three-argument form, and the
    checks both forms share. *)
Definition Uri_init (scheme netloc path : string) : result Uri :=
  let self := {| scheme := scheme; netloc := netloc; path := path |} in
  _ ← (if String.eqb scheme "file" then
         if Py.truthy netloc then
           Raise (ValueError "Can't specify a netloc with file: scheme")
         else if Py.truthy path && negb (Py.startswith path "/") then
           Raise (ValueError
                    ("Must use absolute paths with file: scheme (found " ++ path ++ ")"))
         else Ok tt
       else Ok tt);
  if Py.truthy netloc && negb (Py.truthy scheme) then
    Raise (ValueError "Can't specify a host without an access scheme")
  else Ok self.

(** [Uri.__init__(obj)]: the one-argument form, for an object that has the
    attributes [scheme], [netloc] and [path] (a [ParseResult]). *)
Definition Uri_of (r : urlparse.ParseResult) : result Uri :=
  Uri_init (urlparse.scheme r) (urlparse.netloc r) (urlparse.path r).

(** [Uri.geturl] *)
Definition geturl (u : Uri) : string :=
  if Py.truthy (scheme u) then scheme u ++ "://" ++ netloc u ++ path u
  else path u.

(** What the module asks of its surroundings: [pydoop.hdfs.path.exists],
    [pydoop.hdfs.path.abspath], [pydoop.hadoop_exec()],
    [subprocess.check_output] and [os.getcwd()]. *)
Record Env := {
  phdfs_path_exists : string -> bool;
  phdfs_path_abspath : string -> result string;
  hadoop_exec : string;
  check_output : list string -> result string;
  getcwd : string
}.

(** The calls made to the file system and to [subprocess], in the order
    they are made.  Messages written to the log are left out. *)
Inductive call :=
| PathExists (url : string)
| CheckOutput (argv : list string).

(** [resolve_datapath(mode, datapath)] *)
Definition resolve_datapath (env : Env) (mode datapath : string) : result Uri :=
  r ← urlparse.urlparse datapath;
  u ← Uri_of r;
  if negb (Py.truthy (path u)) then
    Raise (RuntimeError ("blank path in " ++ datapath))
  else if String.eqb mode "default" && negb (Py.truthy (scheme u)) then
    full ← phdfs_path_abspath env (path u);
    r' ← urlparse.urlparse full;
    Uri_of r'
  else if String.eqb mode "local" then
    if Py.truthy (scheme u) && negb (String.eqb (scheme u) "file") then
      Raise (RuntimeError
               ("Specified local mode but datapath is a URI with scheme " ++ scheme u
                ++ " (expected no scheme or 'file')"))
    else
      Ok {| scheme := "file"; netloc := ""; path := os_path.abspath (getcwd env) datapath |}
  else Ok u.

(** The inner function [process] of [expand_paths]: [str.rindex] raises
    when the line has no space. *)
Definition process (datapath_uri : Uri) (ls_line : string) : result string :=
  match Py.rfind " " ls_line with
  | None => Raise (ValueError "substring not found")
  | Some i =>
      let path := Py.from (S i) ls_line in
      r ← urlparse.urlparse path;
      url ← Uri_of r;
      Ok (geturl {| scheme := scheme datapath_uri;
                    netloc := netloc datapath_uri;
                    path := make_pathset.path url |})
  end.

(** The lines of the listing that [expand_paths] keeps: [[1:]] of the
    output split at newlines, trailing newlines stripped first. *)
Definition ls_lines (output : string) : list string :=
  tail (Py.split "010" (Py.rstrip "010" output)).

(** [expand_paths(datapath_uri)]: the calls made and the outcome.  The
    function returns the URLs as strings ([geturl]). *)
Definition expand_paths (env : Env) (datapath_uri : Uri)
  : list call * result (list string) :=
  let url := geturl datapath_uri in
  if phdfs_path_exists env url then
    ([PathExists url], Ok [url])
  else
    let argv := [hadoop_exec env; "dfs"; "-ls"; url] in
    match check_output env argv with
    | Ok output =>
        ([PathExists url; CheckOutput argv],
         map_result (process datapath_uri) (ls_lines output))
    | Raise (CalledProcessError rc) =>
        (* the failure is logged, then [sys.exit(1)] *)
        ([PathExists url; CheckOutput argv], Raise (SystemExit 1))
    | Raise e => ([PathExists url; CheckOutput argv], Raise e)
    end.

End make_pathset.

(** ** [hadoop_galaxy/__init__.py] *)

Module hadoop_galaxy.

Definition EnvOutputDataDir : string := "HADOOP_GALAXY_DATA_DIR".
Definition EnvConfPath : string := "HADOOP_GALAXY_CONF".

(** *** Pathsets *)

(** Modelled from the spec: [hadoop_galaxy.pathset] ([Pathset],
    [FilePathset]) is not among the sources.  A pathset is an ordered
    sequence of entries, each the string form of a URI, with an optional
    data-type tag. *)
Record Pathset := {
  datatype : option string;
  paths : list string
}.

(** Modelled from the spec: the constructor [FilePathset] wraps the
    entries it is given, in order, with no tag. *)
Definition FilePathset (ps : list string) : Pathset :=
  {| datatype := None; paths := ps |}.

(** Modelled from the spec: [len(pset)], [pset.get_paths()] and the first
    element of [iter(pset)]. *)
Definition pathset_len (pset : Pathset) : nat := length (paths pset).
Definition get_paths (pset : Pathset) : list string := paths pset.
Definition iter_next (pset : Pathset) : option string := head (paths pset).

(** Modelled from the spec: [Pathset.write]: the line [#datatype: tag]
    when a tag is set, then one entry per line. *)
Definition pathset_write (pset : Pathset) : string :=
  (match datatype pset with
   | Some t => "#datatype: " ++ t ++ String "010" ""
   | None => ""
   end)
  ++ String.concat "" (map (fun p => p ++ String "010" "") (paths pset)).

(** Modelled from the spec: [FilePathset.from_file]: the tag of a leading
    [#datatype: ] line; blank lines and other lines that start with [#]
    are skipped; every other line is an entry. *)
Definition pathset_from_file (content : string) : Pathset :=
  let lines := Py.split "010" content in
  let tag := match lines with
             | l :: _ => if Py.startswith l "#datatype: "
                         then Some (Py.from 11 l) else None
             | [] => None
             end in
  {| datatype := tag;
     paths := filter (fun l => Py.truthy l && negb (Py.startswith l "#")) lines |}.

(** *** The file store and the surroundings *)

(** An object of the file store: a regular file with its content, or a
    directory. *)
Inductive node :=
| File (content : string)
| Dir.

(** The storage Galaxy and the Hadoop job share (the set-up the docstring
    of [gen_data_output_path] describes), keyed by path as the programs
    spell it.  An object has one key: two spellings are two objects, so the
    store stands for a file system on which each object is reached under one
    spelling, its canonical path, and which has no symbolic links. *)
Abbreviation store := (gmap string node).

(** The canonical spelling of a path: absolute, with one slash at the root
    and between components, no slash at the end and no [.] or [..]
    component.  This is the form [os.path.normpath] leaves as it is, two
    slashes at the root, which it keeps, apart. *)
Definition canonical (p : string) : bool :=
  Py.startswith p "/" && negb (Py.startswith p "//")
  && String.eqb (os_path.normpath p) p.

(** [open(path).read()] *)
Definition open_read (st : store) (path : string) : result string :=
  match st !! path with
  | Some (File c) => Ok c
  | Some Dir => Raise (IOError ("Is a directory: " ++ path))
  | None => Raise (IOError ("No such file or directory: " ++ path))
  end.

(** A directory is at [d]: a directory of the store, the root, or the
    current directory, which [os.path.dirname] gives as the empty string. *)
Definition isdir (st : store) (d : string) : bool :=
  match st !! d with
  | Some Dir => true
  | Some (File _) => false
  | None => String.eqb d "" || String.eqb d "/"
  end.

(** [open(path, 'w')] followed by writing [content] and closing: the file
    is created or truncated as it is opened.  [IOError] when the path names
    no file (it is empty, ends with a slash or with a [.] or [..]
    component), when no directory is at its parent (nothing, or a regular
    file), and when a directory is at the path.  Permissions are left out:
    the account may write wherever a directory is. *)
Definition open_write (st : store) (path content : string) : result unit * store :=
  let name := os_path.basename path in
  if String.eqb name "" || String.eqb name "." || String.eqb name ".." then
    (Raise (IOError ("Is a directory: " ++ path)), st)
  else if negb (isdir st (os_path.dirname path)) then
    (Raise (IOError ("No such file or directory: " ++ path)), st)
  else
    match st !! path with
    | Some Dir => (Raise (IOError ("Is a directory: " ++ path)), st)
    | _ => (Ok tt, <[path := File content]> st)
    end.

(** [k] is [p] or lies below it. *)
Definition at_or_below (p k : string) : bool :=
  String.eqb k p || Py.startswith k (if Py.endswith p "/" then p else p ++ "/").

(** [pydoop.hdfs.rmr(p)]: removes [p] and all below it.  It raises
    [IOError] when there is nothing at [p], and when the file system refuses
    the removal ([permitted] tells what the account of the job may remove),
    in which case what is at [p] and below stays in place. *)
Definition phdfs_rmr (permitted : string -> bool) (st : store) (p : string)
  : result unit * store :=
  match st !! p with
  | None => (Raise (IOError ("Cannot delete " ++ p)), st)
  | Some _ =>
      if permitted p then (Ok tt, filter (fun kv => at_or_below p kv.1 = false) st)
      else (Raise (IOError ("Permission denied: " ++ p)), st)
  end.

(** [pydoop.hdfs.path.exists(p)] *)
Definition phdfs_path_exists (st : store) (p : string) : bool :=
  bool_decide (is_Some (st !! p)).

(** [pydoop.hdfs.mkdir(p)]: creates [p] and the directories above it that
    are missing; [IOError] when one of them is a regular file. *)
Fixpoint makedirs (fuel : nat) (st : store) (p : string) : result unit * store :=
  match st !! p with
  | Some Dir => (Ok tt, st)
  | Some (File _) => (Raise (IOError ("Not a directory: " ++ p)), st)
  | None =>
      let up := os_path.dirname p in
      match fuel with
      | S fuel' =>
          if String.eqb up "" || String.eqb up p then (Ok tt, <[p := Dir]> st)
          else match makedirs fuel' st up with
               | (Ok _, st') => (Ok tt, <[p := Dir]> st')
               | (Raise e, st') => (Raise e, st')
               end
      | O => (Ok tt, <[p := Dir]> st)
      end
  end.

Definition phdfs_mkdir (st : store) (p : string) : result unit * store :=
  makedirs (Py.len p) st p.

(** The configuration [yaml.load] returns, in the shape the module reads
    it: the keys [HADOOP_HOME], [HADOOP_CONF_DIR] and [tool_env], each of
    which may be missing. *)
Record Conf := {
  HADOOP_HOME : option string;
  HADOOP_CONF_DIR : option string;
  tool_env : option (gmap string string)
}.

(** What the module asks of its surroundings besides the store:
    [yaml.load] on the text of the configuration file,
    [hadoop_galaxy.utils.get_abs_executable_path] (not among the sources),
    [subprocess.check_call], which runs the tool on the store and raises
    [CalledProcessError] or [OSError] when it fails, and what the file
    system lets the job remove with [rmr]. *)
Record Sys := {
  yaml_load : string -> result Conf;
  get_abs_executable_path : string -> gmap string string -> result string;
  check_call : list string -> option (gmap string string) -> store -> result unit * store;
  rmr_permitted : string -> bool
}.

(** *** [class HadoopToolRunner] *)

Record HadoopToolRunner := {
  executable : option string;
  input_params : option (list string);
  output_str : option string;
  generic_opts : list string
}.

(** [HadoopToolRunner.__init__(executable)] *)
Definition HadoopToolRunner_init (executable : option string) : HadoopToolRunner :=
  {| executable := executable; input_params := None; output_str := None;
     generic_opts := [] |}.

(** [set_input(pset)] *)
Definition set_input (self : HadoopToolRunner) (pset : Pathset) : HadoopToolRunner :=
  {| executable := executable self; input_params := Some (get_paths pset);
     output_str := output_str self; generic_opts := generic_opts self |}.

(** [set_output(pset)] *)
Definition set_output (self : HadoopToolRunner) (pset : Pathset)
  : result HadoopToolRunner :=
  if negb (Nat.eqb (pathset_len pset) 1) then
    Raise (RuntimeError ("Expecting an output pathset containing one path, but got "
                         ++ pretty (pathset_len pset)))
  else
    Ok {| executable := executable self; input_params := input_params self;
          output_str := iter_next pset; generic_opts := generic_opts self |}.

(** [parse_args(args_list)] *)
Definition parse_args (self : HadoopToolRunner) (args_list : list string)
  : HadoopToolRunner :=
  {| executable := executable self; input_params := input_params self;
     output_str := output_str self; generic_opts := args_list |}.

(** [env or os.environ]: an absent or empty mapping is false. *)
Definition env_or (env : option (gmap string string)) (os_environ : gmap string string)
  : gmap string string :=
  match env with
  | Some e => if bool_decide (e = ∅) then os_environ else e
  | None => os_environ
  end.

(** [command(env)] *)
Definition command (sys : Sys) (os_environ : gmap string string)
           (self : HadoopToolRunner) (env : option (gmap string string))
  : result (list string) :=
  match executable self with
  | None => Raise (RuntimeError "executable not set!")
  | Some exe =>
      match input_params self with
      | None => Raise (RuntimeError "Input parameters not set!")
      | Some inputs =>
          match output_str self with
          | None => Raise (RuntimeError "output path not set!")
          | Some output =>
              full_path ← get_abs_executable_path sys exe (env_or env os_environ);
              Ok ([full_path] ++ generic_opts self ++ inputs ++ [output])%list
          end
      end
  end.

(** [execute(logger, env)]: the outcome and the store it leaves.
    [phdfs.path.dirname] is [os.path.dirname] on the paths of the store. *)
Definition execute (sys : Sys) (os_environ : gmap string string)
           (self : HadoopToolRunner) (env : option (gmap string string)) (st : store)
  : result unit * store :=
  match command sys os_environ self env with
  | Raise e => (Raise e, st)
  | Ok cmd =>
      (* [command] returned, so [output_str] is set *)
      let output := default "" (output_str self) in
      (* an [IOError] of [rmr] is logged and dropped *)
      let st1 := (phdfs_rmr (rmr_permitted sys) st output).2 in
      let parent := os_path.dirname output in
      match (if phdfs_path_exists st1 parent then (Ok tt, st1)
             else phdfs_mkdir st1 parent) with
      | (Raise e, st2) => (Raise e, st2)
      | (Ok _, st2) => check_call sys cmd env st2
      end
  end.

(** *** [class HadoopGalaxy] *)

Definition HadoopOutputDirName : string := "hadoop_output".

(** The namespace [build_parser] and [main] make [argparse] return. *)
Record Options := {
  input : string;
  input_format : option string;
  output : string;
  append_python_path : option string;
  output_data_dir : option string;
  conf : option string;
  remaining_args : list string;
  opt_executable : option string
}.

Record HadoopGalaxy := {
  self_conf : Conf;
  _runner : option HadoopToolRunner;
  _cmd_env : gmap string string
}.

(** [dict()] as a configuration. *)
Definition empty_conf : Conf :=
  {| HADOOP_HOME := None; HADOOP_CONF_DIR := None; tool_env := None |}.

(** [HadoopGalaxy.__init__] *)
Definition HadoopGalaxy_init : HadoopGalaxy :=
  {| self_conf := empty_conf; _runner := None; _cmd_env := ∅ |}.

(** [self._cmd_env[k] = v] when the configuration has the key [k]. *)
Definition copy_key (k : string) (v : option string) (env : gmap string string)
  : gmap string string :=
  match v with Some x => <[k := x]> env | None => env end.

(** [_set_hadoop_conf] *)
Definition _set_hadoop_conf (self : HadoopGalaxy) : HadoopGalaxy :=
  {| self_conf := self_conf self;
     _runner := _runner self;
     _cmd_env := copy_key "HADOOP_CONF_DIR" (HADOOP_CONF_DIR (self_conf self))
                   (copy_key "HADOOP_HOME" (HADOOP_HOME (self_conf self))
                      (_cmd_env self)) |}.

(** [gen_data_output_path(options, name)] *)
Definition gen_data_output_path (os_environ : gmap string string)
           (options : Options) (name : option string) : string :=
  let suffix_path :=
    match name with
    | Some n => if Py.truthy n then n else os_path.basename (output options)
    | None => os_path.basename (output options)
    end in
  let datapath :=
    if Py.truthy_opt (output_data_dir options) then
      default "" (output_data_dir options)
    else if Py.truthy_opt (os_environ !! EnvOutputDataDir) then
      default "" (os_environ !! EnvOutputDataDir)
    else os_path.join (os_path.dirname (output options)) HadoopOutputDirName in
  os_path.join datapath suffix_path.

(** [options.conf or os.environ.get(EnvConfPath)] *)
Definition conf_file_of (os_environ : gmap string string) (options : Options)
  : option string :=
  if Py.truthy_opt (conf options) then conf options else os_environ !! EnvConfPath.

(** [_configure_for_job(options)]: it reads the store and leaves it as it
    is.  An [IOError] on the configuration file ends in [sys.exit(1)]; a
    [YAMLError] is raised again.

    [self._cmd_env] is [copy.copy(os.environ)].  In Python 2.7 [os.environ]
    is an instance of an old-style class, of which [copy.copy] copies the
    attributes but not the dictionary they hold: the copy and [os.environ]
    share that dictionary.  So every assignment to [self._cmd_env], of
    [HADOOP_HOME], of [HADOOP_CONF_DIR] and of the entries of [tool_env], is
    an assignment to [os.environ] too, and once the function has returned
    the process environment is the [_cmd_env] of the object returned. *)
Definition _configure_for_job (sys : Sys) (os_environ : gmap string string)
           (st : store) (self : HadoopGalaxy) (options : Options)
  : result HadoopGalaxy :=
  let cmd_env := os_environ in
  let conf_file := conf_file_of os_environ options in
  cnf ← (if Py.truthy_opt conf_file then
           match open_read st (default "" conf_file) with
           | Raise (IOError _) => Raise (SystemExit 1)
           | Raise e => Raise e
           | Ok text =>
               match yaml_load sys text with
               | Raise (IOError _) => Raise (SystemExit 1)
               | r => r
               end
           end
         else Ok empty_conf);
  let self1 := _set_hadoop_conf
                 {| self_conf := cnf; _runner := _runner self; _cmd_env := cmd_env |} in
  runner ← (match remaining_args options with
            | [] => Ok (_runner self1)
            | args =>
                match _runner self1 with
                | Some r => Ok (Some (parse_args r args))
                | None =>
                    Raise (AttributeError "'NoneType' object has no attribute 'parse_args'")
                end
            end);
  let env' := match tool_env cnf with
              | Some te => te ∪ _cmd_env self1
              | None => _cmd_env self1
              end in
  Ok {| self_conf := cnf; _runner := runner; _cmd_env := env' |}.

(** [str(x)] for a value that may be [None]. *)
Definition str_opt (o : option string) : string := default "None" o.

(** The [except] clauses of [run]: a [CalledProcessError] becomes a
    [RuntimeError] that tells a signal from an exit code, an [OSError] is
    raised again, and every other exception passes through. *)
Definition run_handler (options : Options) (e : exn) : exn :=
  match e with
  | CalledProcessError rc =>
      if (rc <? 0)%Z then
        RuntimeError (str_opt (opt_executable options)
                      ++ " was terminated by signal " ++ pretty rc)
      else if (0 <? rc)%Z then
        RuntimeError (str_opt (opt_executable options) ++ " exit code: " ++ pretty rc)
      else UnboundLocalError "local variable 'msg' referenced before assignment"
  | e => e
  end.

(** The body of the [try] statement of [run]. *)
Definition run_try (sys : Sys) (os_environ : gmap string string)
           (self : HadoopGalaxy) (options : Options)
           (input_pathset output_pathset : Pathset) (st : store)
  : result unit * store :=
  match _runner self with
  | None => (Raise (AttributeError "'NoneType' object has no attribute 'set_input'"), st)
  | Some r0 =>
      let r1 := set_input r0 input_pathset in
      match set_output r1 output_pathset with
      | Raise e => (Raise e, st)
      | Ok r2 =>
          match execute sys os_environ r2 (Some (_cmd_env self)) st with
          | (Raise e, st') => (Raise e, st')
          | (Ok _, st') => open_write st' (output options) (pathset_write output_pathset)
          end
      end
  end.

(** [run(options)]: the outcome and the store it leaves.  What follows
    [_configure_for_job] reads the process environment as that call left it:
    [gen_data_output_path] sees [HADOOP_GALAXY_DATA_DIR] of [tool_env]. *)
Definition run (sys : Sys) (os_environ : gmap string string)
           (self : HadoopGalaxy) (options : Options) (st : store)
  : result unit * store :=
  match _configure_for_job sys os_environ st self options with
  | Raise e => (Raise e, st)
  | Ok self' =>
      (* [os.environ] shares its dictionary with [self._cmd_env] *)
      let os_environ := _cmd_env self' in
      match open_read st (input options) with
      | Raise e => (Raise e, st)
      | Ok text =>
          let input_pathset := pathset_from_file text in
          let output_pathset :=
            FilePathset [gen_data_output_path os_environ options None] in
          match run_try sys os_environ self' options input_pathset output_pathset st with
          | (Raise e, st') => (Raise (run_handler options e), st')
          | ok => ok
          end
      end
  end.

(** [main(args)] after the command line is parsed into [options]. *)
Definition main (sys : Sys) (os_environ : gmap string string)
           (options : Options) (st : store) : result unit * store :=
  if negb (Py.truthy_opt (opt_executable options)) then
    (Raise (ValueError
              "You need to specify the program to run with the --executable option"), st)
  else
    let hg := {| self_conf := self_conf HadoopGalaxy_init;
                 _runner := Some (HadoopToolRunner_init (opt_executable options));
                 _cmd_env := _cmd_env HadoopGalaxy_init |} in
    run sys os_environ hg options st.

(** Modelled from the spec: [hadoop_galaxy.utils.get_abs_executable_path]
    is not among the sources.  An absolute name is returned as it is; any
    other is looked up in the directories of the [PATH] entry of the given
    environment, and the lookup fails when none of them holds it. *)
Definition spec_get_abs_executable_path (is_executable : string -> bool)
           (exec_name : string) (env : gmap string string) : result string :=
  if os_path.isabs exec_name then Ok exec_name
  else
    match List.find (fun d => is_executable (os_path.join d exec_name))
                    (Py.split ":" (default "" (env !! "PATH"))) with
    | Some d => Ok (os_path.join d exec_name)
    | None => Raise (RuntimeError ("Executable not found: " ++ exec_name))
    end.

(** The output-data-directory policy in the words of the specification:
    the base is the explicit option if given, else the environment
    override if set, else [hadoop_output] next to the declared output
    file; the result is the base joined with the explicit name if given,
    else with the base name of the declared output file.  A value is given
    when it is present and not the empty string. *)
Definition given (o : option string) : option string :=
  match o with
  | Some s => if String.eqb s "" then None else Some s
  | None => None
  end.

Definition computeOutputDir_spec (option_dir env_override : option string)
           (declared_output : string) (explicit_name : option string) : string :=
  let base :=
    match given option_dir, given env_override with
    | Some d, _ => d
    | None, Some e => e
    | None, None => os_path.join (os_path.dirname declared_output) "hadoop_output"
    end in
  let name :=
    match given explicit_name with
    | Some n => n
    | None => os_path.basename declared_output
    end in
  os_path.join base name.

End hadoop_galaxy.

(** ** [hadoop_galaxy/make_pathset.py]: the command *)

Module make_pathset_main.

Import make_pathset.

(** The namespace [parse_args] makes [argparse] return. *)
Record Options := {
  force_local : bool;
  data_format : option string;
  output_path : string;
  paths : list string
}.

(** Modelled from the spec: [Pathset.set_datatype] of
    [hadoop_galaxy.pathset], which is not among the sources, sets the
    data-type tag; [None] leaves the pathset without a tag. *)
Definition set_datatype (pset : hadoop_galaxy.Pathset) (t : option string)
  : hadoop_galaxy.Pathset :=
  {| hadoop_galaxy.datatype := t; hadoop_galaxy.paths := hadoop_galaxy.paths pset |}.

(** [test_hadoop()]: the call made and the outcome; a failing command ends
    in [sys.exit(2)], any other exception passes. *)
Definition test_hadoop (env : Env) : list call * result unit :=
  let cmd := [hadoop_exec env; "dfs"; "-stat"; "file:///"] in
  match check_output env cmd with
  | Ok _ => ([CheckOutput cmd], Ok tt)
  | Raise (CalledProcessError _) => ([CheckOutput cmd], Raise (SystemExit 2))
  | Raise e => ([CheckOutput cmd], Raise e)
  end.

(** [[ u for wild in uris for u in expand_paths(wild) ]]: the expansions one
    after the other, the first exception ending the traversal. *)
Fixpoint expand_all (env : Env) (uris : list Uri) : list call * result (list string) :=
  match uris with
  | [] => ([], Ok [])
  | wild :: rest =>
      match expand_paths env wild with
      | (t1, Raise e) => (t1, Raise e)
      | (t1, Ok us) =>
          match expand_all env rest with
          | (t2, Raise e) => ((t1 ++ t2)%list, Raise e)
          | (t2, Ok vs) => ((t1 ++ t2)%list, Ok (us ++ vs)%list)
          end
      end
  end.

(** The paths [do_work] reads: the positional arguments, or the lines of
    the standard input, right-stripped, when there is none. *)
Definition data_paths (stdin : list string) (options : Options) : list string :=
  match paths options with
  | [] => map Py.rstrip_ws stdin
  | ps => ps
  end.

(** [do_work(options)]: the calls made, the outcome and the store it
    leaves; [stdin] holds the lines of the standard input. *)
Definition do_work (env : Env) (stdin : list string) (options : Options)
           (st : gmap string hadoop_galaxy.node)
  : list call * (result unit * gmap string hadoop_galaxy.node) :=
  let mode := if force_local options then "local" else "default" in
  match map_result (resolve_datapath env mode) (data_paths stdin options) with
  | Raise e => ([], (Raise e, st))
  | Ok uris =>
      match expand_all env uris with
      | (t, Raise e) => (t, (Raise e, st))
      | (t, Ok expanded_uris) =>
          let output_pathset :=
            set_datatype (hadoop_galaxy.FilePathset expanded_uris) (data_format options) in
          (t, hadoop_galaxy.open_write st (output_path options)
                (hadoop_galaxy.pathset_write output_pathset))
      end
  end.

(** [main(args)] after the command line is parsed into [options]. *)
Definition main (env : Env) (stdin : list string) (options : Options)
           (st : gmap string hadoop_galaxy.node)
  : list call * (result unit * gmap string hadoop_galaxy.node) :=
  match test_hadoop env with
  | (t, Raise e) => (t, (Raise e, st))
  | (t, Ok _) =>
      let '(t', out) := do_work env stdin options st in ((t ++ t')%list, out)
  end.

End make_pathset_main.

(** ** Concrete surroundings for the examples *)

Module examples.

Import make_pathset.

(** A Hadoop installation whose default file system is [hdfs://nn:8020]
    with the home directory [/user/galaxy], on which [exists] answers [ex]
    and the listing command prints [out]. *)
Definition hadoop_env (ex : string -> bool) (out : result string) : Env :=
  {| phdfs_path_exists := ex;
     phdfs_path_abspath := fun p =>
     Ok ("hdfs://nn:8020" ++ (if Py.startswith p "/" then p else "/user/galaxy/" ++ p));
     hadoop_exec := "/opt/hadoop/bin/hadoop";
     check_output := fun _ => out;
     getcwd := "/home/galaxy" |}.

Definition nl : string := String "010" "".

(** What [hadoop dfs -ls] prints for a directory of two files. *)
Definition listing_two : string :=
  "Found 2 items" ++ nl
  ++ "-rw-r--r--   3 galaxy supergroup       1366 2014-03-01 10:15 /data/a.txt" ++ nl
  ++ "-rw-r--r--   3 galaxy supergroup       2048 2014-03-01 10:16 /data/b.txt" ++ nl.

(** What it prints for a pattern that matches one file: no header. *)
Definition listing_one : string :=
  "-rw-r--r--   3 galaxy supergroup       1366 2014-03-01 10:15 /data/a.txt" ++ nl.

Definition pattern_uri : Uri :=
  {| scheme := "hdfs"; netloc := "nn:8020"; path := "/data/*.txt" |}.



(** The process environment: [PATH] only. *)
Definition os_environ : gmap string string := {[ "PATH" := "/usr/bin" ]}.

(** A tool that fails with exit code 1 and leaves the store as it is. *)
Definition failing_tool (cmd : list string) (env : option (gmap string string))
           (st : gmap string hadoop_galaxy.node)
  : result unit * gmap string hadoop_galaxy.node :=
  (Raise (CalledProcessError 1), st).

(** A tool that creates its output directory, the last word of its command
    line, and exits with 0. *)
Definition working_tool (cmd : list string) (env : option (gmap string string))
           (st : gmap string hadoop_galaxy.node)
  : result unit * gmap string hadoop_galaxy.node :=
  (Ok tt, <[List.last cmd "" := hadoop_galaxy.Dir]> st).

(** The surroundings: an empty configuration file parses to an empty
    configuration, [/usr/bin/tool] is the one executable, and the job may
    remove whatever it asks to. *)
Definition sys (tool : list string -> option (gmap string string) ->
                       gmap string hadoop_galaxy.node ->
                       result unit * gmap string hadoop_galaxy.node)
  : hadoop_galaxy.Sys :=
  {| hadoop_galaxy.yaml_load := fun _ => Ok hadoop_galaxy.empty_conf;
     hadoop_galaxy.get_abs_executable_path :=
       hadoop_galaxy.spec_get_abs_executable_path (String.eqb "/usr/bin/tool");
     hadoop_galaxy.check_call := tool;
     hadoop_galaxy.rmr_permitted := fun _ => true |}.

(** A runner with everything set. *)
Definition runner : hadoop_galaxy.HadoopToolRunner :=
  {| hadoop_galaxy.executable := Some "tool";
     hadoop_galaxy.input_params := Some ["hdfs://nn/a.txt"; "hdfs://nn/b.txt"];
     hadoop_galaxy.output_str := Some "/galaxy/data/hadoop_output/job7.dataset";
     hadoop_galaxy.generic_opts := ["-D"; "mapred.reduce.tasks=2"] |}.

(** The command line of the adapter: [--input], [--output],
    [--output-data-dir] and [--executable tool]. *)
Definition options (input output : string) (output_data_dir : option string)
  : hadoop_galaxy.Options :=
  {| hadoop_galaxy.input := input;
     hadoop_galaxy.input_format := None;
     hadoop_galaxy.output := output;
     hadoop_galaxy.append_python_path := None;
     hadoop_galaxy.output_data_dir := output_data_dir;
     hadoop_galaxy.conf := None;
     hadoop_galaxy.remaining_args := [];
     hadoop_galaxy.opt_executable := Some "tool" |}.

(** Galaxy's data directory before the job: the input pathset, and the
    output dataset file that is there already. *)
Definition galaxy_store : gmap string hadoop_galaxy.node :=
  {[ "/galaxy/data" := hadoop_galaxy.Dir;
     "/galaxy/data/job6.dataset" :=
       hadoop_galaxy.File ("hdfs://nn/a.txt" ++ nl ++ "hdfs://nn/b.txt" ++ nl);
     "/galaxy/data/job7.dataset" := hadoop_galaxy.File "previous content" ]}.

(** The command line of [make_pathset]: a data format, the output file
    and the paths. *)
Definition pathset_options (output_path : string) (paths : list string)
  : make_pathset_main.Options :=
  {| make_pathset_main.force_local := false;
     make_pathset_main.data_format := Some "fastq";
     make_pathset_main.output_path := output_path;
     make_pathset_main.paths := paths |}.

(** A configuration file that sets [HADOOP_HOME] and, for the tool,
    [JAVA_HOME] and [HADOOP_HOME] again. *)
Definition configuration : hadoop_galaxy.Conf :=
  {| hadoop_galaxy.HADOOP_HOME := Some "/opt/hadoop";
     hadoop_galaxy.HADOOP_CONF_DIR := None;
     hadoop_galaxy.tool_env :=
       Some {[ "JAVA_HOME" := "/opt/java"; "HADOOP_HOME" := "/opt/hadoop-2" ]} |}.

(** Surroundings in which the text [hadoop] of a configuration file parses
    to [configuration] and any other text is refused by the parser. *)
Definition conf_sys : hadoop_galaxy.Sys :=
  {| hadoop_galaxy.yaml_load := fun text =>
       if String.eqb text "hadoop" then Ok configuration
       else Raise (YAMLError "could not parse");
     hadoop_galaxy.get_abs_executable_path :=
       hadoop_galaxy.spec_get_abs_executable_path (String.eqb "/usr/bin/tool");
     hadoop_galaxy.check_call := working_tool;
     hadoop_galaxy.rmr_permitted := fun _ => true |}.

(** The options of a job that names a configuration file. *)
Definition conf_options (conf : string) : hadoop_galaxy.Options :=
  {| hadoop_galaxy.input := "/galaxy/data/job6.dataset";
     hadoop_galaxy.input_format := None;
     hadoop_galaxy.output := "/galaxy/data/job7.dataset";
     hadoop_galaxy.append_python_path := None;
     hadoop_galaxy.output_data_dir := None;
     hadoop_galaxy.conf := Some conf;
     hadoop_galaxy.remaining_args := ["-D"; "mapred.reduce.tasks=2"];
     hadoop_galaxy.opt_executable := Some "tool" |}.

(** A store with a configuration file and one that does not parse. *)
Definition conf_store : gmap string hadoop_galaxy.node :=
  {[ "/etc/hg.yaml" := hadoop_galaxy.File "hadoop";
     "/etc/bad.yaml" := hadoop_galaxy.File "[" ]}.

(** A configuration file whose [tool_env] names a data directory, the
    directory of the output dataset. *)
Definition data_dir_configuration : hadoop_galaxy.Conf :=
  {| hadoop_galaxy.HADOOP_HOME := None;
     hadoop_galaxy.HADOOP_CONF_DIR := None;
     hadoop_galaxy.tool_env :=
       Some {[ "HADOOP_GALAXY_DATA_DIR" := "/galaxy/data" ]} |}.

(** The same with a data directory of its own. *)
Definition scratch_configuration : hadoop_galaxy.Conf :=
  {| hadoop_galaxy.HADOOP_HOME := None;
     hadoop_galaxy.HADOOP_CONF_DIR := None;
     hadoop_galaxy.tool_env :=
       Some {[ "HADOOP_GALAXY_DATA_DIR" := "/scratch" ]} |}.

(** Surroundings in which the texts [data] and [scratch] of a configuration
    file parse to these two configurations. *)
Definition data_dir_sys (tool : list string -> option (gmap string string) ->
                                gmap string hadoop_galaxy.node ->
                                result unit * gmap string hadoop_galaxy.node)
  : hadoop_galaxy.Sys :=
  {| hadoop_galaxy.yaml_load := fun text =>
       if String.eqb text "data" then Ok data_dir_configuration
       else if String.eqb text "scratch" then Ok scratch_configuration
       else Raise (YAMLError "could not parse");
     hadoop_galaxy.get_abs_executable_path :=
       hadoop_galaxy.spec_get_abs_executable_path (String.eqb "/usr/bin/tool");
     hadoop_galaxy.check_call := tool;
     hadoop_galaxy.rmr_permitted := fun _ => true |}.

(** Galaxy's data directory and the two configuration files. *)
Definition data_dir_store : gmap string hadoop_galaxy.node :=
  {[ "/etc/data.yaml" := hadoop_galaxy.File "data";
     "/etc/scratch.yaml" := hadoop_galaxy.File "scratch";
     "/galaxy/data" := hadoop_galaxy.Dir;
     "/galaxy/data/job6.dataset" :=
       hadoop_galaxy.File ("hdfs://nn/a.txt" ++ nl ++ "hdfs://nn/b.txt" ++ nl);
     "/galaxy/data/job7.dataset" := hadoop_galaxy.File "previous content" ]}.


(** The object [main] of the adapter builds before it calls [run]. *)
Definition galaxy : hadoop_galaxy.HadoopGalaxy :=
  {| hadoop_galaxy.self_conf := hadoop_galaxy.empty_conf;
     hadoop_galaxy._runner := Some (hadoop_galaxy.HadoopToolRunner_init (Some "tool"));
     hadoop_galaxy._cmd_env := ∅ |}.

End examples.

(** ** Predicates used in the statements *)

Module props.

Import make_pathset.

(** What [Uri.__init__] rejects, as a test on the three arguments. *)
Definition rejected (scheme netloc path : string) : bool :=
  (String.eqb scheme "file" && Py.truthy netloc)
  || (String.eqb scheme "file" && Py.truthy path && negb (Py.startswith path "/"))
  || (Py.truthy netloc && negb (Py.truthy scheme)).

(** The file system gives absolute forms: whatever [phdfs.path.abspath]
    returns parses to a path anchored at the root. *)
Definition abspath_rooted (env : Env) : Prop :=
  forall p full r,
    phdfs_path_abspath env p = Ok full ->
    urlparse.urlparse full = Ok r ->
    Py.startswith (urlparse.path r) "/" = true.

(** What [process] takes from the listing line [line]: the text after the
    last space of the line parses to a URI that [Uri.__init__] accepts, and
    [p] is the path component of that URI.  It need not be the text itself:
    parsing cuts it at a [#], a [?] or a [;] and sets a scheme and a host
    apart. *)
Definition entry_path (line p : string) : Prop :=
  exists i r,
    Py.rfind " " line = Some i
    /\ urlparse.urlparse (Py.from (S i) line) = Ok r
    /\ is_ok (Uri_of r) = true
    /\ p = urlparse.path r.






(** The URL [expand_paths] rebuilds for an entry: the scheme and host of
    the URI it was given, with the path of the entry. *)
Definition rebuilt (datapath_uri : Uri) (p : string) : string :=
  geturl {| scheme := scheme datapath_uri; netloc := netloc datapath_uri; path := p |}.

End props.

(** * Properties *)

(** ** Strings and results *)

Lemma truthy_false (s : string) : Py.truthy s = false <-> s = "".
Proof. destruct s; simpl; split; congruence. Qed.

Lemma truthy_true (s : string) : Py.truthy s = true <-> s <> "".
Proof. destruct s; simpl; split; congruence. Qed.

Lemma startswith_nonempty (s p : string) :
  Py.startswith s p = true -> p <> "" -> s <> "".
Proof. destruct p, s; simpl; congruence. Qed.

(** [str.split] never returns the empty list. *)
Lemma split_cons (c : ascii) (s : string) :
  exists w ws, Py.split c s = w :: ws.
Proof.
  induction s as [|a s IH]; simpl; [by eauto|].
  destruct (Ascii.eqb a c); [by eauto|].
  destruct IH as (w & ws & ->). eauto.
Qed.

Lemma map_result_length {A B} (f : A -> result B) (xs : list A) (ys : list B) :
  map_result f xs = Ok ys -> length ys = length xs.
Proof.
  revert ys. induction xs as [|x xs IH]; intros ys; simpl.
  - intros [= <-]. done.
  - destruct (f x); simpl; [|done].
    destruct (map_result f xs) as [zs|]; simpl; [|done].
    intros [= <-]. simpl. f_equal. by apply IH.
Qed.

(** ** [make_pathset]: URIs *)

Section uri.

Import make_pathset props.

Lemma Uri_init_cases (s h p : string) :
  if rejected s h p then exists msg, Uri_init s h p = Raise (ValueError msg)
  else Uri_init s h p = Ok {| scheme := s; netloc := h; path := p |}.
Proof.
  unfold rejected, Uri_init.
  generalize (Py.startswith p "/"); intros sw.
  destruct (String.eqb s "file") eqn:Hs.
  - apply String.eqb_eq in Hs as ->.
    destruct (Py.truthy h), (Py.truthy p), sw; simpl; by eauto.
  - destruct (Py.truthy h), (Py.truthy s); simpl; by eauto.
Qed.

Lemma rejected_iff (s h p : string) :
  rejected s h p = true
  <-> (s = "file" /\ h <> "")
      \/ (s = "file" /\ p <> "" /\ Py.startswith p "/" = false)
      \/ (h <> "" /\ s = "").
Proof.
  unfold rejected.
  rewrite !orb_true_iff, !andb_true_iff, !negb_true_iff, String.eqb_eq,
    !truthy_true, truthy_false.
  tauto.
Qed.

Lemma Uri_init_ok_fields (s h p : string) (u : Uri) :
  Uri_init s h p = Ok u -> u = {| scheme := s; netloc := h; path := p |}.
Proof.
  intros H. pose proof (Uri_init_cases s h p) as Hc.
  destruct (rejected s h p).
  - destruct Hc as [msg Hc]. congruence.
  - congruence.
Qed.

End uri.

(** C5, as the code has it.  Constructing a [Uri] from (scheme, host, path)
    raises [ValueError] (the specification's InvalidUri) exactly when the
    scheme is [file] and the host is not empty, or the scheme is [file] and
    the path is not empty and does not start with a slash, or the host is not
    empty and the scheme is; it returns the triple unchanged exactly in the
    other cases.  The function is pure: it reads nothing but its
    arguments. *)
Theorem Uri_init_raises_iff (s h p : string) :
  let violated :=
    (s = "file" /\ h <> "")
    \/ (s = "file" /\ p <> "" /\ Py.startswith p "/" = false)
    \/ (h <> "" /\ s = "") in
  ((exists msg, make_pathset.Uri_init s h p = Raise (ValueError msg)) <-> violated)
  /\ (make_pathset.Uri_init s h p
      = Ok {| make_pathset.scheme := s; make_pathset.netloc := h;
              make_pathset.path := p |}
      <-> ~ violated).
Proof.
  intros violated.
  pose proof (Uri_init_cases s h p) as Hc.
  pose proof (rejected_iff s h p) as Hr. fold violated in Hr.
  destruct (props.rejected s h p).
  - destruct Hc as [msg Hc]. rewrite Hc.
    assert (Hv : violated) by (by apply Hr).
    split; split; try done; by eauto.
  - rewrite Hc.
    assert (Hv : ~ violated) by (intros Hv; apply Hr in Hv; done).
    split; split; try done.
    intros [msg ?]. congruence.
Qed.

(** C5, as stated, fails: the scheme [file] with the empty path, which is
    not anchored at the root, is accepted. *)
Lemma Uri_init_file_empty_path_accepted :
  Py.startswith "" "/" = false
  /\ make_pathset.Uri_init "file" "" ""
     = Ok {| make_pathset.scheme := "file"; make_pathset.netloc := "";
             make_pathset.path := "" |}.
Proof. split; reflexivity. Qed.

(** ** [make_pathset]: path resolution *)

Section resolve.

Import make_pathset props.

Lemma normpath_nonempty (p : string) : os_path.normpath p <> "".
Proof.
  unfold os_path.normpath.
  destruct (String.eqb p ""); [done|].
  match goal with |- (if Py.truthy ?x then _ else _) <> _ => destruct x end; done.
Qed.

Lemma abspath_nonempty (cwd p : string) : os_path.abspath cwd p <> "".
Proof. apply normpath_nonempty. Qed.

(** With a current directory that is absolute, [os.path.abspath] returns a
    path that starts with a slash. *)
Lemma abspath_isabs (cwd p : string) :
  os_path.isabs cwd = true -> os_path.isabs (os_path.abspath cwd p) = true.
Proof.
  intros Hcwd. unfold os_path.abspath, os_path.isabs in *.
  set (q := if Py.startswith p "/" then p else os_path.join cwd p).
  assert (Hq : Py.startswith q "/" = true).
  { unfold q. destruct (Py.startswith p "/") eqn:Hp; [done|].
    unfold os_path.join. rewrite Hp.
    destruct cwd as [|a cwd]; [done|]. simpl in Hcwd.
    destruct (String.eqb (String a cwd) "" || Py.endswith (String a cwd) "/"); simpl;
      exact Hcwd. }
  unfold os_path.normpath.
  destruct q as [|a q]; [done|]. simpl in Hq.
  destruct (Ascii.eqb a "/") eqn:Ha; [|done].
  replace (String.eqb (String a q) "") with false by done.
  replace (Py.startswith (String a q) "/") with true by (simpl; by rewrite Ha).
  destruct (Py.startswith (String a q) "//" && negb (Py.startswith (String a q) "///"));
    simpl; done.
Qed.

(** What [resolve_datapath] does in local mode, once [datapath] has parsed
    to a URI [u0] with a path: any scheme other than [file] or the empty one
    is refused with [RuntimeError] (the specification's InvalidPath), and
    otherwise the result has scheme [file], no host, and as path
    [os.path.abspath] of the whole of [datapath]. *)
Lemma resolve_datapath_local_cases (env : Env) (datapath : string)
      (r : urlparse.ParseResult) (u0 : Uri) :
  urlparse.urlparse datapath = Ok r ->
  Uri_of r = Ok u0 ->
  path u0 <> "" ->
  if Py.truthy (scheme u0) && negb (String.eqb (scheme u0) "file")
  then exists msg, resolve_datapath env "local" datapath = Raise (RuntimeError msg)
  else resolve_datapath env "local" datapath
       = Ok {| scheme := "file"; netloc := "";
               path := os_path.abspath (getcwd env) datapath |}.
Proof.
  intros Hr Hu Hp. unfold resolve_datapath. rewrite Hr. simpl. rewrite Hu. simpl.
  apply truthy_true in Hp. rewrite Hp. simpl.
  destruct (Py.truthy (scheme u0) && negb (String.eqb (scheme u0) "file")); by eauto.
Qed.

End resolve.

(** Evaluates the tests on the characters of a literal. *)
Ltac eval_chars :=
  repeat match goal with
    | |- context [Py.is_digit ?c] =>
        let v := eval vm_compute in (Py.is_digit c) in change (Py.is_digit c) with v
    | |- context [urlparse.scheme_char ?c] =>
        let v := eval vm_compute in (urlparse.scheme_char c) in
        change (urlparse.scheme_char c) with v
    | |- context [Py.lower_char ?c] =>
        let v := eval vm_compute in (Py.lower_char c) in change (Py.lower_char c) with v
    end.

(** A URL made of [hdfs://nn:8020] and a path that starts with a slash
    parses to a path that starts with a slash, whatever follows. *)
Lemma urlparse_hdfs_rooted (q : string) (r : urlparse.ParseResult) :
  urlparse.urlparse ("hdfs://nn:8020/" ++ q) = Ok r ->
  Py.startswith (urlparse.path r) "/" = true.
Proof.
  cbv beta iota delta [String.append].
  unfold urlparse.urlparse, urlparse.urlsplit, urlparse.split_scheme.
  cbn -[Nat.min]. eval_chars. cbn -[Nat.min].
  unfold urlparse._splitnetloc, Py.find_from, Py.contains, Py.split1. cbn -[Nat.min].
  destruct (Py.find "?" q) as [i2|] eqn:H2;
  destruct (Py.find "#" q) as [i3|] eqn:H3; cbn -[Nat.min];
  repeat match goal with
    | |- context [Nat.min ?a ?b] =>
        first [ replace (Nat.min a b) with 9 by lia
              | replace (Nat.min a b) with b by lia
              | replace (Nat.min a b) with a by lia ]
    end; cbn; rewrite ?H2, ?H3; cbn;
  repeat match goal with
    | |- context [Py.find "?" ?x] => destruct (Py.find "?" x)
    end; cbn; intros [= <-]; reflexivity.
Qed.

Lemma hadoop_env_abspath_rooted (ex : string -> bool) (out : result string) :
  props.abspath_rooted (examples.hadoop_env ex out).
Proof.
  intros p full r H.
  change (Ok ("hdfs://nn:8020"
              ++ (if Py.startswith p "/" then p else "/user/galaxy/" ++ p)) = Ok full) in H.
  destruct (Py.startswith p "/") eqn:Hp; injection H as <-.
  - destruct p as [|a p]; [done|]. simpl in Hp.
    destruct (Ascii.eqb_spec a "/") as [->|]; [|done].
    exact (urlparse_hdfs_rooted p r).
  - exact (urlparse_hdfs_rooted ("user/galaxy/" ++ p) r).
Qed.

(** C9.  Every [Uri] that [resolve_datapath] returns (so one that
    [Uri.__init__] accepted and that passed the blank-path check) has a path
    that is not empty, in every mode, on a file system whose absolute forms
    are anchored at the root. *)
Theorem resolve_datapath_path_nonempty (env : make_pathset.Env)
        (mode datapath : string) (u : make_pathset.Uri) :
  props.abspath_rooted env ->
  make_pathset.resolve_datapath env mode datapath = Ok u ->
  make_pathset.path u <> "".
Proof.
  intros Habs. unfold make_pathset.resolve_datapath.
  destruct (urlparse.urlparse datapath) as [r|]; simpl; [|done].
  destruct (make_pathset.Uri_of r) as [u0|]; simpl; [|done].
  destruct (Py.truthy (make_pathset.path u0)) eqn:Hp; simpl; [|done].
  destruct (String.eqb mode "default" && negb (Py.truthy (make_pathset.scheme u0))).
  - destruct (make_pathset.phdfs_path_abspath env (make_pathset.path u0))
      as [full|] eqn:Hfull; simpl; [|done].
    destruct (urlparse.urlparse full) as [r'|] eqn:Hr'; simpl; [|done].
    intros Hu. apply Uri_init_ok_fields in Hu. subst u. simpl.
    eapply startswith_nonempty; [by eapply Habs|done].
  - destruct (String.eqb mode "local").
    + destruct (Py.truthy (make_pathset.scheme u0)
                && negb (String.eqb (make_pathset.scheme u0) "file")); [done|].
      intros [= <-]. simpl. apply abspath_nonempty.
    + intros [= <-]. by apply truthy_true.
Qed.

(** C9 on a relative pattern in default mode: it resolves under the home
    directory of the default file system. *)
Lemma resolve_datapath_path_nonempty_default :
  make_pathset.resolve_datapath (examples.hadoop_env (fun _ => false) (Ok "")) "default" "data/x*"
  = Ok {| make_pathset.scheme := "hdfs"; make_pathset.netloc := "nn:8020";
          make_pathset.path := "/user/galaxy/data/x*" |}
  /\ make_pathset.path
       {| make_pathset.scheme := "hdfs"; make_pathset.netloc := "nn:8020";
          make_pathset.path := "/user/galaxy/data/x*" |} <> "".
Proof.
  assert (Hres : make_pathset.resolve_datapath
                   (examples.hadoop_env (fun _ => false) (Ok "")) "default" "data/x*"
                 = Ok {| make_pathset.scheme := "hdfs"; make_pathset.netloc := "nn:8020";
                         make_pathset.path := "/user/galaxy/data/x*" |})
    by reflexivity.
  split; [exact Hres|].
  exact (resolve_datapath_path_nonempty _ _ _ _
           (hadoop_env_abspath_rooted (fun _ => false) (Ok "")) Hres).
Defined.

(** The constructor alone does not check the path: it accepts an empty
    one, which [resolve_datapath] then refuses. *)
Example Uri_init_accepts_blank_path :
  make_pathset.Uri_init "hdfs" "nn:8020" ""
  = Ok {| make_pathset.scheme := "hdfs"; make_pathset.netloc := "nn:8020";
          make_pathset.path := "" |}
  /\ make_pathset.resolve_datapath (examples.hadoop_env (fun _ => false) (Ok ""))
       "default" "hdfs://nn:8020"
     = Raise (RuntimeError "blank path in hdfs://nn:8020").
Proof. split; reflexivity. Qed.

(** C4, at the input where the code departs from it.  In local mode the
    URI [file:///tmp/x] parses to scheme [file] and path [/tmp/x], which is
    absolute already; the code makes the whole input string absolute instead
    of that path, so the result has the path [/home/galaxy/file:/tmp/x]
    under the current directory [/home/galaxy]. *)
Theorem resolve_datapath_local_file_uri (ex : string -> bool) (out : result string) :
  (urlparse.urlparse "file:///tmp/x" ≫= make_pathset.Uri_of)
  = Ok {| make_pathset.scheme := "file"; make_pathset.netloc := "";
          make_pathset.path := "/tmp/x" |}
  /\ os_path.abspath "/home/galaxy" "/tmp/x" = "/tmp/x"
  /\ make_pathset.resolve_datapath (examples.hadoop_env ex out) "local" "file:///tmp/x"
     = Ok {| make_pathset.scheme := "file"; make_pathset.netloc := "";
             make_pathset.path := "/home/galaxy/file:/tmp/x" |}.
Proof. repeat split; reflexivity. Qed.

(** For an input without scheme the path that is made absolute is the
    path of the input, and a scheme other than [file] is refused. *)
Example resolve_datapath_local_plain (ex : string -> bool) (out : result string) :
  make_pathset.resolve_datapath (examples.hadoop_env ex out) "local" "data/../x.txt"
  = Ok {| make_pathset.scheme := "file"; make_pathset.netloc := "";
          make_pathset.path := "/home/galaxy/x.txt" |}
  /\ (exists msg,
        make_pathset.resolve_datapath (examples.hadoop_env ex out) "local" "hdfs://nn/x"
        = Raise (RuntimeError msg)).
Proof. split; [reflexivity|]. eexists. reflexivity. Qed.

(** ** [make_pathset]: wildcard expansion *)

Section expand.

Import make_pathset props.


(** When the path does not exist and the listing succeeds, the outcome is
    [process] mapped over the lines after the first. *)
Lemma expand_paths_listed (env : Env) (datapath_uri : Uri) (output : string) :
  phdfs_path_exists env (geturl datapath_uri) = false ->
  check_output env [hadoop_exec env; "dfs"; "-ls"; geturl datapath_uri] = Ok output ->
  expand_paths env datapath_uri
  = ([PathExists (geturl datapath_uri);
      CheckOutput [hadoop_exec env; "dfs"; "-ls"; geturl datapath_uri]],
     map_result (process datapath_uri) (ls_lines output)).
Proof. intros He Hc. unfold expand_paths. rewrite He, Hc. done. Qed.

(** Whenever the expansion by listing succeeds, it has one URL for each
    line of the output but the first. *)
Lemma expand_paths_listed_length (env : Env) (datapath_uri : Uri)
      (output : string) (urls : list string) :
  phdfs_path_exists env (geturl datapath_uri) = false ->
  check_output env [hadoop_exec env; "dfs"; "-ls"; geturl datapath_uri] = Ok output ->
  (expand_paths env datapath_uri).2 = Ok urls ->
  S (length urls) = length (Py.split "010" (Py.rstrip "010" output)).
Proof.
  intros He Hc. rewrite (expand_paths_listed _ _ _ He Hc). simpl.
  intros Hm. apply map_result_length in Hm. rewrite Hm. unfold ls_lines.
  destruct (split_cons "010" (Py.rstrip "010" output)) as (w & ws & ->). done.
Qed.

Lemma process_ok_inv (datapath_uri : Uri) (line url : string) :
  process datapath_uri line = Ok url ->
  exists p, entry_path line p /\ url = rebuilt datapath_uri p.
Proof.
  unfold process. destruct (Py.rfind " " line) as [i|] eqn:Hi; [|done].
  destruct (urlparse.urlparse (Py.from (S i) line)) as [r|] eqn:Hr; simpl; [|done].
  destruct (Uri_of r) as [u|] eqn:Hu; simpl; [|done].
  intros [= <-]. exists (urlparse.path r). split.
  - exists i, r. rewrite Hu. done.
  - apply Uri_init_ok_fields in Hu. by subst u.
Qed.

Lemma map_result_ok_inv {A B} (f : A -> result B) (xs : list A) (ys : list B) :
  map_result f xs = Ok ys -> Forall2 (fun x y => f x = Ok y) xs ys.
Proof.
  revert ys. induction xs as [|x xs IH]; intros ys; simpl.
  - intros [= <-]. constructor.
  - destruct (f x) as [y|] eqn:Hx; simpl; [|done].
    destruct (map_result f xs) as [zs|]; simpl; [|done].
    intros [= <-]. constructor; [done|by apply IH].
Qed.

Lemma map_result_ok_intro {A B} (f : A -> result B) (xs : list A) (ys : list B) :
  Forall2 (fun x y => f x = Ok y) xs ys -> map_result f xs = Ok ys.
Proof.
  induction 1 as [|x y xs ys Hx _ IH]; simpl; [done|].
  rewrite Hx. simpl. rewrite IH. done.
Qed.

Lemma map_result_raise {A B} (f : A -> result B) (xs : list A) (x : A) (e : exn) :
  In x xs -> f x = Raise e -> exists e', map_result f xs = Raise e'.
Proof.
  induction xs as [|y xs IH]; simpl; [done|].
  intros [->|Hin] Hx.
  - rewrite Hx. simpl. by eauto.
  - destruct (f y); simpl; [|by eauto].
    destruct (IH Hin Hx) as [e' ->]. simpl. by eauto.
Qed.

(** *** Listing lines that end with a plain path *)








End expand.




(** C7.  When the URI names an existing object, [expand_paths] returns the
    one-element list of its URL, and the only call it makes is the test of
    existence: no listing is run. *)
Theorem expand_paths_existing (env : make_pathset.Env) (datapath_uri : make_pathset.Uri) :
  make_pathset.phdfs_path_exists env (make_pathset.geturl datapath_uri) = true ->
  make_pathset.expand_paths env datapath_uri
  = ([make_pathset.PathExists (make_pathset.geturl datapath_uri)],
     Ok [make_pathset.geturl datapath_uri]).
Proof. intros He. unfold make_pathset.expand_paths. by rewrite He. Qed.

(** C7 on a file that exists, with a listing command that would fail
    if it were run. *)
Lemma expand_paths_existing_file :
  make_pathset.expand_paths
    (examples.hadoop_env (String.eqb "hdfs://nn:8020/data/a.txt")
                         (Raise (OSError "hadoop: not found")))
    {| make_pathset.scheme := "hdfs"; make_pathset.netloc := "nn:8020";
       make_pathset.path := "/data/a.txt" |}
  = ([make_pathset.PathExists "hdfs://nn:8020/data/a.txt"],
     Ok ["hdfs://nn:8020/data/a.txt"]).
Proof.
  exact (expand_paths_existing
           (examples.hadoop_env (String.eqb "hdfs://nn:8020/data/a.txt")
                                (Raise (OSError "hadoop: not found")))
           {| make_pathset.scheme := "hdfs"; make_pathset.netloc := "nn:8020";
              make_pathset.path := "/data/a.txt" |} eq_refl).
Defined.

(** C10.  In the listing branch the first line of the output is dropped
    whatever it is: the outcome is [process] mapped over the other lines and
    does not depend on the first; an output of exactly one line gives the
    empty list. *)
Theorem expand_paths_drops_first_line (env : make_pathset.Env)
        (datapath_uri : make_pathset.Uri) (output first : string) (rest : list string) :
  make_pathset.phdfs_path_exists env (make_pathset.geturl datapath_uri) = false ->
  make_pathset.check_output env
    [make_pathset.hadoop_exec env; "dfs"; "-ls"; make_pathset.geturl datapath_uri]
  = Ok output ->
  Py.split "010" (Py.rstrip "010" output) = first :: rest ->
  (make_pathset.expand_paths env datapath_uri).2
  = map_result (make_pathset.process datapath_uri) rest
  /\ (rest = [] -> (make_pathset.expand_paths env datapath_uri).2 = Ok []).
Proof.
  intros He Hc Hs.
  rewrite (expand_paths_listed _ _ _ He Hc). simpl.
  unfold make_pathset.ls_lines. rewrite Hs. simpl.
  split; [done|]. by intros ->.
Qed.

(** C10 on the listing of a pattern that matches one file, which has no
    header: the only entry is dropped. *)
Lemma expand_paths_drops_only_entry :
  (make_pathset.expand_paths
     (examples.hadoop_env (fun _ => false) (Ok examples.listing_one))
     examples.pattern_uri).2
  = Ok [].
Proof.
  refine (proj2 (expand_paths_drops_first_line
            (examples.hadoop_env (fun _ => false) (Ok examples.listing_one))
            examples.pattern_uri examples.listing_one
            "-rw-r--r--   3 galaxy supergroup       1366 2014-03-01 10:15 /data/a.txt"
            [] _ _ _) _); reflexivity.
Defined.

(** The listing always has a first line to drop: the split of a string is
    never empty. *)
Lemma ls_lines_drops_one (output : string) :
  exists first,
    Py.split "010" (Py.rstrip "010" output) = first :: make_pathset.ls_lines output.
Proof.
  unfold make_pathset.ls_lines.
  destruct (split_cons "010" (Py.rstrip "010" output)) as (w & ws & ->).
  by exists w.
Qed.

(** ** [hadoop_galaxy]: the tool adapter *)

(** C2.  [set_output] raises [RuntimeError] (the specification's
    CardinalityError) on a pathset with no entry or with two or more, and on
    a pathset with exactly one entry it succeeds and stores that entry as
    the output path, the other attributes unchanged. *)
Theorem set_output_cardinality (self : hadoop_galaxy.HadoopToolRunner)
        (pset : hadoop_galaxy.Pathset) :
  (hadoop_galaxy.pathset_len pset = 0 \/ 2 <= hadoop_galaxy.pathset_len pset ->
   hadoop_galaxy.set_output self pset
   = Raise (RuntimeError ("Expecting an output pathset containing one path, but got "
                          ++ pretty (hadoop_galaxy.pathset_len pset))))
  /\ (forall p, hadoop_galaxy.paths pset = [p] ->
        hadoop_galaxy.set_output self pset
        = Ok {| hadoop_galaxy.executable := hadoop_galaxy.executable self;
                hadoop_galaxy.input_params := hadoop_galaxy.input_params self;
                hadoop_galaxy.output_str := Some p;
                hadoop_galaxy.generic_opts := hadoop_galaxy.generic_opts self |}).
Proof.
  unfold hadoop_galaxy.set_output, hadoop_galaxy.pathset_len, hadoop_galaxy.iter_next.
  split.
  - intros H.
    destruct (Nat.eqb_spec (length (hadoop_galaxy.paths pset)) 1) as [E|E]; [lia|done].
  - intros p ->. reflexivity.
Qed.

(** C2 on pathsets of no, two and one entries. *)
Lemma set_output_cardinality_examples :
  hadoop_galaxy.set_output examples.runner (hadoop_galaxy.FilePathset [])
  = Raise (RuntimeError "Expecting an output pathset containing one path, but got 0")
  /\ hadoop_galaxy.set_output examples.runner (hadoop_galaxy.FilePathset ["/a"; "/b"])
     = Raise (RuntimeError "Expecting an output pathset containing one path, but got 2")
  /\ hadoop_galaxy.output_str
       <$> hadoop_galaxy.set_output examples.runner (hadoop_galaxy.FilePathset ["/a"])
     = Ok (Some "/a").
Proof.
  split; [|split].
  - exact (proj1 (set_output_cardinality examples.runner (hadoop_galaxy.FilePathset []))
                 (or_introl eq_refl)).
  - refine (proj1 (set_output_cardinality examples.runner
                     (hadoop_galaxy.FilePathset ["/a"; "/b"])) (or_intror _)).
    change (2 <= 2). lia.
  - rewrite (proj2 (set_output_cardinality examples.runner
                      (hadoop_galaxy.FilePathset ["/a"])) "/a" eq_refl).
    reflexivity.
Defined.

(** C8 as the code has it.  [command] raises [RuntimeError] (the
    specification's ConfigurationError) when the executable, the input paths
    or the output path is not set.  Otherwise it resolves the executable
    with [get_abs_executable_path] and, when that succeeds, returns the
    resolved executable, the options, the input paths and the output path,
    in this order; an error of the resolution is passed on.  The
    environment searched is the one given when it is given and not empty,
    and the process environment otherwise. *)
Theorem command_argv (sys : hadoop_galaxy.Sys) (os_environ : gmap string string)
        (self : hadoop_galaxy.HadoopToolRunner) (env : option (gmap string string)) :
  (hadoop_galaxy.executable self = None
   \/ hadoop_galaxy.input_params self = None
   \/ hadoop_galaxy.output_str self = None ->
   exists msg, hadoop_galaxy.command sys os_environ self env = Raise (RuntimeError msg))
  /\ (forall exe inputs output searched,
        hadoop_galaxy.executable self = Some exe ->
        hadoop_galaxy.input_params self = Some inputs ->
        hadoop_galaxy.output_str self = Some output ->
        match env with
        | Some e => (e <> ∅ /\ searched = e) \/ (e = ∅ /\ searched = os_environ)
        | None => searched = os_environ
        end ->
        hadoop_galaxy.command sys os_environ self env
        = match hadoop_galaxy.get_abs_executable_path sys exe searched with
          | Ok resolved =>
              Ok ([resolved] ++ hadoop_galaxy.generic_opts self ++ inputs ++ [output])%list
          | Raise e => Raise e
          end).
Proof.
  unfold hadoop_galaxy.command. split.
  - intros H.
    destruct (hadoop_galaxy.executable self); [|by eauto].
    destruct (hadoop_galaxy.input_params self); [|by eauto].
    destruct (hadoop_galaxy.output_str self); [|by eauto].
    destruct H as [H|[H|H]]; discriminate H.
  - intros exe inputs output searched -> -> -> Hs.
    assert (hadoop_galaxy.env_or env os_environ = searched) as ->.
    { unfold hadoop_galaxy.env_or. destruct env as [e|]; [|done].
      case_bool_decide as He; destruct Hs as [[Hne ->]|[Hem ->]]; congruence. }
    reflexivity.
Qed.

(** C8 on a runner with everything set, given an environment with a
    [PATH], and on a runner whose input is not set. *)
Lemma command_argv_example :
  hadoop_galaxy.command (examples.sys examples.working_tool) ∅ examples.runner
    (Some examples.os_environ)
  = Ok ["/usr/bin/tool"; "-D"; "mapred.reduce.tasks=2"; "hdfs://nn/a.txt";
        "hdfs://nn/b.txt"; "/galaxy/data/hadoop_output/job7.dataset"]
  /\ (exists msg,
        hadoop_galaxy.command (examples.sys examples.working_tool) ∅
          (hadoop_galaxy.HadoopToolRunner_init (Some "tool")) (Some examples.os_environ)
        = Raise (RuntimeError msg)).
Proof.
  split.
  - refine (eq_trans
              (proj2 (command_argv (examples.sys examples.working_tool) ∅ examples.runner
                        (Some examples.os_environ))
                     "tool" ["hdfs://nn/a.txt"; "hdfs://nn/b.txt"]
                     "/galaxy/data/hadoop_output/job7.dataset" examples.os_environ
                     eq_refl eq_refl eq_refl (or_introl (conj _ eq_refl))) _).
    + intros H. apply (f_equal (fun m => m !! "PATH")) in H. vm_compute in H. discriminate H.
    + reflexivity.
  - exact (proj1 (command_argv (examples.sys examples.working_tool) ∅
                    (hadoop_galaxy.HadoopToolRunner_init (Some "tool"))
                    (Some examples.os_environ))
                 (or_intror (or_introl eq_refl))).
Defined.

(** C8, as stated, fails: given the empty environment, whose [PATH] holds
    nothing and against which the resolution fails, [command] returns a
    command line whose executable was found through the [PATH] of the process
    environment. *)
Lemma command_empty_env_searches_process_environment :
  hadoop_galaxy.get_abs_executable_path (examples.sys examples.working_tool) "tool" ∅
  = Raise (RuntimeError "Executable not found: tool")
  /\ hadoop_galaxy.command (examples.sys examples.working_tool) examples.os_environ
       examples.runner (Some ∅)
     = Ok ["/usr/bin/tool"; "-D"; "mapred.reduce.tasks=2"; "hdfs://nn/a.txt";
           "hdfs://nn/b.txt"; "/galaxy/data/hadoop_output/job7.dataset"].
Proof. split; reflexivity. Qed.

(** ** [hadoop_galaxy]: the output data path *)

Lemma given_truthy (o : option string) :
  hadoop_galaxy.given o = if Py.truthy_opt o then o else None.
Proof. destruct o as [[|a s]|]; reflexivity. Qed.

(** With a base that is not empty and does not end with a slash, and a
    name that does not start with one, [os.path.join] puts one slash
    between the two. *)
Lemma join_plain (base name : string) :
  base <> "" -> Py.endswith base "/" = false -> Py.startswith name "/" = false ->
  os_path.join base name = base ++ "/" ++ name.
Proof.
  intros Hb He Hn. unfold os_path.join.
  change (Py.startswith name "/") with
    (match name with "" => false | String a _ => if Ascii.eqb a "/" then true else false end).
  change (Py.startswith name "/") with
    (match name with "" => false | String a _ => if Ascii.eqb a "/" then true else false end)
    in Hn.
  rewrite Hn, He. destruct base; [done|]. reflexivity.
Qed.

(** C3.  [gen_data_output_path] follows the policy of the specification:
    the base is the option [--output-data-dir] if given, else the value of
    [HADOOP_GALAXY_DATA_DIR] if set, else [hadoop_output] joined to the
    directory of the declared output file; the result is the base joined
    with the explicit name if given, else with the base name of the declared
    output file.  With the option [/x], the override [/y] and the declared
    output [/d/out.pathset] the result is [/x/out.pathset]. *)
Theorem gen_data_output_path_policy (os_environ : gmap string string)
        (options : hadoop_galaxy.Options) (name : option string) :
  hadoop_galaxy.gen_data_output_path os_environ options name
  = hadoop_galaxy.computeOutputDir_spec
      (hadoop_galaxy.output_data_dir options)
      (os_environ !! hadoop_galaxy.EnvOutputDataDir)
      (hadoop_galaxy.output options) name
  /\ (hadoop_galaxy.output_data_dir options = Some "/x" ->
      os_environ !! hadoop_galaxy.EnvOutputDataDir = Some "/y" ->
      hadoop_galaxy.output options = "/d/out.pathset" ->
      hadoop_galaxy.gen_data_output_path os_environ options None = "/x/out.pathset").
Proof.
  unfold hadoop_galaxy.gen_data_output_path, hadoop_galaxy.computeOutputDir_spec.
  split.
  - rewrite !given_truthy.
    assert (Hn : match name with
                 | Some n => if Py.truthy n then n
                             else os_path.basename (hadoop_galaxy.output options)
                 | None => os_path.basename (hadoop_galaxy.output options)
                 end
                 = match (if Py.truthy_opt name then name else None) with
                   | Some n => n
                   | None => os_path.basename (hadoop_galaxy.output options)
                   end).
    { destruct name as [[|a n]|]; reflexivity. }
    rewrite Hn. f_equal.
    destruct (hadoop_galaxy.output_data_dir options) as [[|a d]|]; simpl;
      destruct (os_environ !! hadoop_galaxy.EnvOutputDataDir) as [[|b e]|]; reflexivity.
  - intros -> -> ->. reflexivity.
Qed.

(** C3 on the example of the specification. *)
Lemma gen_data_output_path_explicit_option_wins :
  hadoop_galaxy.gen_data_output_path {[ hadoop_galaxy.EnvOutputDataDir := "/y" ]}
    (examples.options "/d/in.pathset" "/d/out.pathset" (Some "/x")) None
  = "/x/out.pathset".
Proof.
  exact (proj2 (gen_data_output_path_policy {[ hadoop_galaxy.EnvOutputDataDir := "/y" ]}
                  (examples.options "/d/in.pathset" "/d/out.pathset" (Some "/x")) None)
               eq_refl eq_refl eq_refl).
Defined.

(** The other two rows of the policy, and an explicit name. *)
Example gen_data_output_path_rows :
  hadoop_galaxy.gen_data_output_path {[ hadoop_galaxy.EnvOutputDataDir := "/y" ]}
    (examples.options "/d/in.pathset" "/d/out.pathset" None) None
  = "/y/out.pathset"
  /\ hadoop_galaxy.gen_data_output_path ∅
       (examples.options "/d/in.pathset" "/d/out.pathset" None) None
     = "/d/hadoop_output/out.pathset"
  /\ hadoop_galaxy.gen_data_output_path ∅
       (examples.options "/d/in.pathset" "/d/out.pathset" None) (Some "job")
     = "/d/hadoop_output/job".
Proof. repeat split; reflexivity. Qed.

(** ** [hadoop_galaxy]: the run *)

Section store.

Import hadoop_galaxy.


Lemma startswith_refl (p : string) : Py.startswith p p = true.
Proof. induction p as [|a p IH]; simpl; [done|]. by rewrite Ascii.eqb_refl. Qed.






(** [open(path, 'w')] either raises and leaves the store as it is, or
    succeeds and leaves the written file at [path]. *)
Lemma open_write_cases (st : gmap string node) (path content : string) :
  (exists e, open_write st path content = (Raise e, st))
  \/ open_write st path content = (Ok tt, <[path := File content]> st).
Proof.
  unfold open_write.
  destruct (_ || _); [by eauto|]. destruct (negb _); [by eauto|].
  destruct (st !! path) as [[c|]|]; eauto.
Qed.


End store.

(** The scenario of the specification: no data directory given, the tool
    succeeds, and the output pathset names the directory under
    [hadoop_output]. *)
Example run_end_to_end :
  let options := examples.options "/galaxy/data/job6.dataset"
                                  "/galaxy/data/job7.dataset" None in
  let out := hadoop_galaxy.main (examples.sys examples.working_tool)
               examples.os_environ options examples.galaxy_store in
  hadoop_galaxy.gen_data_output_path examples.os_environ options None
  = "/galaxy/data/hadoop_output/job7.dataset"
  /\ out.1 = Ok tt
  /\ out.2 !! "/galaxy/data/job7.dataset"
     = Some (hadoop_galaxy.File ("/galaxy/data/hadoop_output/job7.dataset" ++ examples.nl))
  /\ out.2 !! "/galaxy/data/hadoop_output/job7.dataset" = Some hadoop_galaxy.Dir.
Proof. vm_compute. repeat split; reflexivity. Qed.

(** C1 where the code departs from it.  The job is given the directory of
    its output dataset as [--output-data-dir], so the data output path is
    the declared output file itself.  The tool exits with status 1: [run]
    raises, and the declared output file, which was there before, is gone:
    [execute] removed it with [rmr] before it launched the tool. *)
Theorem run_failure_removes_declared_output :
  let options := examples.options "/galaxy/data/job6.dataset"
                                  "/galaxy/data/job7.dataset" (Some "/galaxy/data") in
  let out := hadoop_galaxy.main (examples.sys examples.failing_tool)
               examples.os_environ options examples.galaxy_store in
  hadoop_galaxy.gen_data_output_path examples.os_environ options None
  = hadoop_galaxy.output options
  /\ examples.galaxy_store !! hadoop_galaxy.output options
     = Some (hadoop_galaxy.File "previous content")
  /\ out.1 = Raise (RuntimeError "tool exit code: 1")
  /\ out.2 !! hadoop_galaxy.output options = None.
Proof. vm_compute. repeat split; reflexivity. Qed.

(** * Further properties *)

(** ** [make_pathset]: path resolution in each mode *)

(** X1.  In local mode, with a current directory that is absolute, every
    URI [resolve_datapath] returns has the scheme [file], no host and the
    absolute path [os.path.abspath] gives for the input; its URL is
    [file://] followed by that path, and although the three attributes are
    assigned after the constructor ran, they pass its checks. *)
Theorem resolve_datapath_local_url (env : make_pathset.Env) (datapath : string)
        (u : make_pathset.Uri) :
  os_path.isabs (make_pathset.getcwd env) = true ->
  make_pathset.resolve_datapath env "local" datapath = Ok u ->
  u = {| make_pathset.scheme := "file"; make_pathset.netloc := "";
         make_pathset.path := os_path.abspath (make_pathset.getcwd env) datapath |}
  /\ os_path.isabs (make_pathset.path u) = true
  /\ make_pathset.geturl u = "file://" ++ make_pathset.path u
  /\ make_pathset.Uri_init (make_pathset.scheme u) (make_pathset.netloc u)
       (make_pathset.path u) = Ok u.
Proof.
  intros Hcwd. unfold make_pathset.resolve_datapath.
  destruct (urlparse.urlparse datapath) as [r|]; simpl; [|done].
  destruct (make_pathset.Uri_of r) as [u0|]; simpl; [|done].
  destruct (negb (Py.truthy (make_pathset.path u0))); [done|].
  destruct (Py.truthy (make_pathset.scheme u0)
            && negb (String.eqb (make_pathset.scheme u0) "file")); [done|].
  intros [= <-].
  pose proof (abspath_isabs _ datapath Hcwd) as Habs.
  cbn [make_pathset.scheme make_pathset.netloc make_pathset.path].
  repeat split; try done.
  unfold os_path.isabs in Habs.
  destruct (os_path.abspath (make_pathset.getcwd env) datapath) as [|a q]; [done|].
  simpl in Habs. unfold make_pathset.Uri_init. simpl.
  destruct (Ascii.eqb a "/"); [reflexivity|done].
Qed.

(** X1 on a relative path with a parent reference. *)
Lemma resolve_datapath_local_url_relative :
  make_pathset.geturl
    {| make_pathset.scheme := "file"; make_pathset.netloc := "";
       make_pathset.path := "/home/galaxy/x.txt" |}
  = "file:///home/galaxy/x.txt".
Proof.
  pose proof (resolve_datapath_local_url
                (examples.hadoop_env (fun _ => false) (Ok "")) "data/../x.txt"
                {| make_pathset.scheme := "file"; make_pathset.netloc := "";
                   make_pathset.path := "/home/galaxy/x.txt" |}
                eq_refl eq_refl) as (_ & _ & Hurl & _).
  exact Hurl.
Defined.

(** X2.  In local mode [resolve_datapath] returns a URI exactly when the
    input parses, the parsed triple passes the checks of the constructor,
    its path is not empty, and its scheme is empty or [file]. *)
Theorem resolve_datapath_local_ok_iff (env : make_pathset.Env) (datapath : string) :
  is_ok (make_pathset.resolve_datapath env "local" datapath) = true
  <-> exists r,
        urlparse.urlparse datapath = Ok r
        /\ props.rejected (urlparse.scheme r) (urlparse.netloc r) (urlparse.path r) = false
        /\ urlparse.path r <> ""
        /\ (urlparse.scheme r = "" \/ urlparse.scheme r = "file").
Proof.
  unfold make_pathset.resolve_datapath, make_pathset.Uri_of.
  destruct (urlparse.urlparse datapath) as [r|e]; simpl.
  2:{ split; [done|]. intros (r & Hr & _). done. }
  pose proof (Uri_init_cases (urlparse.scheme r) (urlparse.netloc r) (urlparse.path r))
    as Hc.
  destruct (props.rejected (urlparse.scheme r) (urlparse.netloc r) (urlparse.path r))
    eqn:Hrj.
  { destruct Hc as [msg ->]. simpl. split; [done|].
    intros (r' & [= <-] & Hrej & _). congruence. }
  rewrite Hc. simpl.
  destruct (urlparse.path r) as [|a p] eqn:Hp; simpl.
  { split; [done|]. intros (r' & [= <-] & _ & Hne & _). congruence. }
  destruct (urlparse.scheme r) as [|b sch] eqn:Hs; cbn -[String.eqb].
  { split; [|done]. intros _. exists r. rewrite Hp, Hs.
    repeat split; [exact Hrj|done|by left]. }
  destruct (String.eqb_spec (String b sch) "file") as [E|E]; cbn -[String.eqb].
  - split; [|done]. intros _. exists r. rewrite Hp, Hs.
    repeat split; [exact Hrj|done|by right].
  - split; [done|]. intros (r' & [= <-] & _ & _ & [Hs'|Hs']); congruence.
Qed.

(** X3.  [resolve_datapath] asks nothing of its surroundings unless it is
    in local mode or resolves a path without scheme in default mode: in any
    other mode, which is not refused, and in default mode for an input with
    a scheme, the result is the same in all surroundings, and a URI that is
    returned is the parsed input unchanged. *)
Theorem resolve_datapath_as_parsed (env env' : make_pathset.Env)
        (mode datapath : string) :
  (mode <> "default" /\ mode <> "local")
  \/ (mode = "default"
      /\ exists r, urlparse.urlparse datapath = Ok r /\ urlparse.scheme r <> "") ->
  make_pathset.resolve_datapath env mode datapath
  = make_pathset.resolve_datapath env' mode datapath
  /\ (forall u, make_pathset.resolve_datapath env mode datapath = Ok u ->
        exists r, urlparse.urlparse datapath = Ok r
                  /\ u = {| make_pathset.scheme := urlparse.scheme r;
                            make_pathset.netloc := urlparse.netloc r;
                            make_pathset.path := urlparse.path r |}).
Proof.
  intros Hmode. unfold make_pathset.resolve_datapath.
  destruct (urlparse.urlparse datapath) as [r|e] eqn:Hr; simpl; [|done].
  destruct (make_pathset.Uri_of r) as [u0|e] eqn:Hu; simpl; [|done].
  apply Uri_init_ok_fields in Hu. subst u0. simpl.
  destruct (negb (Py.truthy (urlparse.path r))); [done|].
  assert (Hd : String.eqb mode "default" && negb (Py.truthy (urlparse.scheme r)) = false).
  { destruct Hmode as [[Hd _]|[-> (r' & [= <-] & Hs)]].
    - apply String.eqb_neq in Hd. by rewrite Hd.
    - apply truthy_true in Hs. by rewrite Hs. }
  rewrite Hd.
  assert (Hl : String.eqb mode "local" = false).
  { destruct Hmode as [[_ Hl]|[-> _]]; [by apply String.eqb_neq|done]. }
  rewrite Hl. split; [done|]. intros u [= <-]. by exists r.
Qed.

(** X3 on a mode that does not exist and on a URI with a scheme. *)
Lemma resolve_datapath_as_parsed_examples :
  make_pathset.resolve_datapath (examples.hadoop_env (fun _ => false) (Ok ""))
    "remote" "data/x"
  = Ok {| make_pathset.scheme := ""; make_pathset.netloc := "";
          make_pathset.path := "data/x" |}
  /\ make_pathset.resolve_datapath (examples.hadoop_env (fun _ => true) (Raise (OSError "")))
       "default" "s3://bucket/key"
     = make_pathset.resolve_datapath (examples.hadoop_env (fun _ => false) (Ok ""))
         "default" "s3://bucket/key".
Proof.
  split; [reflexivity|].
  refine (proj1 (resolve_datapath_as_parsed
                   (examples.hadoop_env (fun _ => true) (Raise (OSError "")))
                   (examples.hadoop_env (fun _ => false) (Ok ""))
                   "default" "s3://bucket/key" (or_intror (conj eq_refl _)))).
  eexists. split; [reflexivity|]. simpl. discriminate.
Defined.

(** ** [make_pathset]: what a successful expansion implies *)

(** X4.  When the URI does not name an existing object and the expansion by
    listing returns, every line of the output after the first has a space
    and ends with a token that parses to a URI the constructor accepts, and
    the URLs returned are, line by line, the scheme and host of the given
    URI with the path of that token.  So a line without a space, a blank one
    included, never yields a partial result. *)
Theorem expand_paths_listing_inv (env : make_pathset.Env)
        (datapath_uri : make_pathset.Uri) (output : string) (urls : list string) :
  make_pathset.phdfs_path_exists env (make_pathset.geturl datapath_uri) = false ->
  make_pathset.check_output env
    [make_pathset.hadoop_exec env; "dfs"; "-ls"; make_pathset.geturl datapath_uri]
  = Ok output ->
  (make_pathset.expand_paths env datapath_uri).2 = Ok urls ->
  Forall2 (fun line url =>
             exists p, props.entry_path line p /\ url = props.rebuilt datapath_uri p)
          (make_pathset.ls_lines output) urls.
Proof.
  intros He Hc. rewrite (expand_paths_listed _ _ _ He Hc). simpl. intros Hm.
  apply map_result_ok_inv in Hm.
  eapply Forall2_impl; [exact Hm|]. intros line url. apply process_ok_inv.
Qed.

(** X4 on the listing of two files. *)
Lemma expand_paths_listing_inv_two :
  Forall2 (fun line url =>
             exists p, props.entry_path line p /\ url = props.rebuilt examples.pattern_uri p)
          (make_pathset.ls_lines examples.listing_two)
          ["hdfs://nn:8020/data/a.txt"; "hdfs://nn:8020/data/b.txt"].
Proof.
  exact (expand_paths_listing_inv
           (examples.hadoop_env (fun _ => false) (Ok examples.listing_two))
           examples.pattern_uri examples.listing_two
           ["hdfs://nn:8020/data/a.txt"; "hdfs://nn:8020/data/b.txt"]
           eq_refl eq_refl eq_refl).
Defined.

(** A blank line inside the listing makes the whole expansion raise. *)
Example expand_paths_blank_line :
  (make_pathset.expand_paths
     (examples.hadoop_env (fun _ => false)
        (Ok ("Found 2 items" ++ examples.nl
             ++ "-rw-r--r--   3 galaxy supergroup 1366 2014-03-01 10:15 /data/a.txt"
             ++ examples.nl ++ examples.nl
             ++ "-rw-r--r--   3 galaxy supergroup 2048 2014-03-01 10:16 /data/b.txt"
             ++ examples.nl)))
     examples.pattern_uri).2
  = Raise (ValueError "substring not found").
Proof. reflexivity. Qed.

(** X5.  When the URI does not name an existing object and the listing
    command fails, [expand_paths] has run it once, after the test of
    existence, and does not run it again: a [CalledProcessError] ends in
    [sys.exit(1)] whatever the exit status of the command, and any other
    exception, such as the [OSError] of a missing [hadoop] program, passes
    unchanged. *)
Theorem expand_paths_listing_failure (env : make_pathset.Env)
        (datapath_uri : make_pathset.Uri) (e : exn) :
  make_pathset.phdfs_path_exists env (make_pathset.geturl datapath_uri) = false ->
  make_pathset.check_output env
    [make_pathset.hadoop_exec env; "dfs"; "-ls"; make_pathset.geturl datapath_uri]
  = Raise e ->
  make_pathset.expand_paths env datapath_uri
  = ([make_pathset.PathExists (make_pathset.geturl datapath_uri);
      make_pathset.CheckOutput
        [make_pathset.hadoop_exec env; "dfs"; "-ls"; make_pathset.geturl datapath_uri]],
     Raise (match e with CalledProcessError _ => SystemExit 1 | _ => e end)).
Proof.
  intros He Hc. unfold make_pathset.expand_paths. rewrite He, Hc.
  destruct e; reflexivity.
Qed.

(** X5 on a listing that exits with status 255. *)
Lemma expand_paths_listing_failure_exit :
  (make_pathset.expand_paths
     (examples.hadoop_env (fun _ => false) (Raise (CalledProcessError 255)))
     examples.pattern_uri).2
  = Raise (SystemExit 1).
Proof.
  exact (f_equal snd
           (expand_paths_listing_failure
              (examples.hadoop_env (fun _ => false) (Raise (CalledProcessError 255)))
              examples.pattern_uri (CalledProcessError 255) eq_refl eq_refl)).
Defined.

(** ** [make_pathset]: the command *)

Section do_work.

Import make_pathset make_pathset_main.

Lemma expand_all_ok (env : Env) (uris : list Uri) (uss : list (list string)) :
  Forall2 (fun u us => (expand_paths env u).2 = Ok us) uris uss ->
  expand_all env uris
  = (concat (map (fun u => (expand_paths env u).1) uris), Ok (concat uss)).
Proof.
  induction 1 as [|u us uris uss Hu _ IH]; simpl; [done|].
  destruct (expand_paths env u) as [t1 r1]. simpl in Hu. subst r1.
  rewrite IH. done.
Qed.


End do_work.


(** X7.  [do_work] resolves every path before it expands any: when one of
    the paths it reads does not resolve, wherever it stands in the list, it
    raises without a test of existence or a listing, and writes nothing. *)
Theorem do_work_resolves_first (env : make_pathset.Env) (stdin : list string)
        (options : make_pathset_main.Options) (st : gmap string hadoop_galaxy.node)
        (p : string) (e : exn) :
  In p (make_pathset_main.data_paths stdin options) ->
  make_pathset.resolve_datapath env
    (if make_pathset_main.force_local options then "local" else "default") p
  = Raise e ->
  exists e', make_pathset_main.do_work env stdin options st = ([], (Raise e', st)).
Proof.
  intros Hin Hp. unfold make_pathset_main.do_work.
  destruct (map_result_raise _ _ p e Hin Hp) as [e' ->]. by exists e'.
Qed.

(** X7 on a blank line at the end of the standard input. *)
Lemma do_work_resolves_first_blank_line :
  exists e',
    make_pathset_main.do_work
      (examples.hadoop_env (fun _ => true) (Ok ""))
      ["/data/a.txt" ++ examples.nl; examples.nl]
      (examples.pathset_options "/galaxy/data/job6.dataset" []) ∅
    = ([], (Raise e', ∅)).
Proof.
  refine (do_work_resolves_first
            (examples.hadoop_env (fun _ => true) (Ok ""))
            ["/data/a.txt" ++ examples.nl; examples.nl]
            (examples.pathset_options "/galaxy/data/job6.dataset" []) ∅
            "" (RuntimeError "blank path in ") _ eq_refl).
  right. left. reflexivity.
Defined.

(** X8.  When every path resolves and every resolved URI expands, [do_work]
    runs the expansions in the order of the paths and then opens the output
    file for writing: its outcome is the outcome of that [open] with the
    pathset of the data format given whose entries are the expansions one
    after the other, in that order.  So the pathset is written when the
    output path names a file (its last component is not empty, [.] or
    [..]), a directory is at its parent and no directory is at the path
    itself; and when the output path is in its canonical spelling and no
    directory is at its parent, whether nothing is there or a regular file,
    [do_work] raises [IOError] and writes nothing. *)
Theorem do_work_writes_expansions (env : make_pathset.Env) (stdin : list string)
        (options : make_pathset_main.Options) (st : gmap string hadoop_galaxy.node)
        (uris : list make_pathset.Uri) (uss : list (list string)) :
  Forall2 (fun p u =>
             make_pathset.resolve_datapath env
               (if make_pathset_main.force_local options then "local" else "default") p
             = Ok u)
          (make_pathset_main.data_paths stdin options) uris ->
  Forall2 (fun u us => (make_pathset.expand_paths env u).2 = Ok us) uris uss ->
  let output_path := make_pathset_main.output_path options in
  let content :=
    hadoop_galaxy.pathset_write
      {| hadoop_galaxy.datatype := make_pathset_main.data_format options;
         hadoop_galaxy.paths := concat uss |} in
  let calls := concat (map (fun u => (make_pathset.expand_paths env u).1) uris) in
  make_pathset_main.do_work env stdin options st
  = (calls, hadoop_galaxy.open_write st output_path content)
  /\ (os_path.basename output_path <> "" ->
      os_path.basename output_path <> "." ->
      os_path.basename output_path <> ".." ->
      hadoop_galaxy.isdir st (os_path.dirname output_path) = true ->
      st !! output_path <> Some hadoop_galaxy.Dir ->
      make_pathset_main.do_work env stdin options st
      = (calls, (Ok tt, <[output_path := hadoop_galaxy.File content]> st)))
  /\ (hadoop_galaxy.canonical output_path = true ->
      hadoop_galaxy.isdir st (os_path.dirname output_path) = false ->
      exists msg,
        make_pathset_main.do_work env stdin options st
        = (calls, (Raise (IOError msg), st))).
Proof.
  intros Hres Hexp output_path content calls.
  assert (Hdo : make_pathset_main.do_work env stdin options st
                = (calls, hadoop_galaxy.open_write st output_path content)).
  { unfold make_pathset_main.do_work.
    by rewrite (map_result_ok_intro _ _ _ Hres), (expand_all_ok _ _ _ Hexp). }
  rewrite Hdo. unfold hadoop_galaxy.open_write. split; [done|]. split.
  - intros H1 H2 H3 Hd Hnd.
    apply String.eqb_neq in H1, H2, H3. rewrite H1, H2, H3, Hd. simpl.
    by destruct (st !! output_path) as [[c|]|].
  - intros _ Hd. rewrite Hd. simpl. destruct (_ || _); by eauto.
Qed.

(** X8 on a pattern and a file that exists, with the directory of the
    output file there and with the empty store. *)
Lemma do_work_writes_expansions_example :
  (make_pathset_main.do_work
     (examples.hadoop_env (String.eqb "hdfs://nn:8020/user/galaxy/c.txt")
                          (Ok examples.listing_two))
     [] (examples.pathset_options "/galaxy/data/job6.dataset" ["/data/*.txt"; "c.txt"])
     {[ "/galaxy/data" := hadoop_galaxy.Dir ]}).2
  = (Ok tt,
     <[ "/galaxy/data/job6.dataset" :=
          hadoop_galaxy.File
            ("#datatype: fastq" ++ examples.nl
             ++ "hdfs://nn:8020/data/a.txt" ++ examples.nl
             ++ "hdfs://nn:8020/data/b.txt" ++ examples.nl
             ++ "hdfs://nn:8020/user/galaxy/c.txt" ++ examples.nl) ]>
       {[ "/galaxy/data" := hadoop_galaxy.Dir ]})
  /\ exists msg,
       (make_pathset_main.do_work
          (examples.hadoop_env (String.eqb "hdfs://nn:8020/user/galaxy/c.txt")
                               (Ok examples.listing_two))
          [] (examples.pathset_options "/galaxy/data/job6.dataset"
                ["/data/*.txt"; "c.txt"])
          ∅).2
       = (Raise (IOError msg), ∅).
Proof.
  assert (Hres : Forall2
            (fun p u =>
               make_pathset.resolve_datapath
                 (examples.hadoop_env (String.eqb "hdfs://nn:8020/user/galaxy/c.txt")
                                      (Ok examples.listing_two))
                 "default" p = Ok u)
            ["/data/*.txt"; "c.txt"]
            [ {| make_pathset.scheme := "hdfs"; make_pathset.netloc := "nn:8020";
                 make_pathset.path := "/data/*.txt" |};
              {| make_pathset.scheme := "hdfs"; make_pathset.netloc := "nn:8020";
                 make_pathset.path := "/user/galaxy/c.txt" |} ])
    by repeat constructor.
  assert (Hexp : Forall2
            (fun u us =>
               (make_pathset.expand_paths
                  (examples.hadoop_env (String.eqb "hdfs://nn:8020/user/galaxy/c.txt")
                                       (Ok examples.listing_two)) u).2 = Ok us)
            [ {| make_pathset.scheme := "hdfs"; make_pathset.netloc := "nn:8020";
                 make_pathset.path := "/data/*.txt" |};
              {| make_pathset.scheme := "hdfs"; make_pathset.netloc := "nn:8020";
                 make_pathset.path := "/user/galaxy/c.txt" |} ]
            [ ["hdfs://nn:8020/data/a.txt"; "hdfs://nn:8020/data/b.txt"];
              ["hdfs://nn:8020/user/galaxy/c.txt"] ])
    by repeat constructor.
  split.
  - refine (f_equal snd
              (proj1 (proj2
                 (do_work_writes_expansions
                    (examples.hadoop_env (String.eqb "hdfs://nn:8020/user/galaxy/c.txt")
                                         (Ok examples.listing_two))
                    [] (examples.pathset_options "/galaxy/data/job6.dataset"
                          ["/data/*.txt"; "c.txt"])
                    {[ "/galaxy/data" := hadoop_galaxy.Dir ]} _ _ Hres Hexp))
                 _ _ _ _ _)).
    + discriminate.
    + discriminate.
    + discriminate.
    + reflexivity.
    + vm_compute. discriminate.
  - assert (Hd : hadoop_galaxy.isdir ∅ (os_path.dirname "/galaxy/data/job6.dataset")
                 = false) by (vm_compute; reflexivity).
    destruct (proj2 (proj2
                (do_work_writes_expansions
                   (examples.hadoop_env (String.eqb "hdfs://nn:8020/user/galaxy/c.txt")
                                        (Ok examples.listing_two))
                   [] (examples.pathset_options "/galaxy/data/job6.dataset"
                         ["/data/*.txt"; "c.txt"])
                   ∅ _ _ Hres Hexp)) eq_refl Hd) as [msg H].
    exists msg. exact (f_equal snd H).
Defined.

(** X9.  [main] of [make_pathset] tests the Hadoop installation before
    anything else: when the test command fails, no path is resolved or
    expanded and nothing is written; a [CalledProcessError] ends in
    [sys.exit(2)], and any other exception, such as the [OSError] of a
    missing [hadoop] program, passes unchanged instead. *)
Theorem make_pathset_main_test_fails (env : make_pathset.Env) (stdin : list string)
        (options : make_pathset_main.Options) (st : gmap string hadoop_galaxy.node)
        (e : exn) :
  make_pathset.check_output env [make_pathset.hadoop_exec env; "dfs"; "-stat"; "file:///"]
  = Raise e ->
  make_pathset_main.main env stdin options st
  = ([make_pathset.CheckOutput
        [make_pathset.hadoop_exec env; "dfs"; "-stat"; "file:///"]],
     (Raise (match e with CalledProcessError _ => SystemExit 2 | _ => e end), st)).
Proof.
  intros Hc. unfold make_pathset_main.main, make_pathset_main.test_hadoop.
  rewrite Hc. destruct e; reflexivity.
Qed.

(** X9 on a [hadoop] program that is missing. *)
Lemma make_pathset_main_test_fails_missing :
  (make_pathset_main.main
     (examples.hadoop_env (fun _ => true) (Raise (OSError "No such file or directory")))
     [] (examples.pathset_options "/galaxy/data/job6.dataset" ["/data/a.txt"]) ∅).2
  = (Raise (OSError "No such file or directory"), ∅).
Proof.
  exact (f_equal snd
           (make_pathset_main_test_fails
              (examples.hadoop_env (fun _ => true)
                 (Raise (OSError "No such file or directory")))
              [] (examples.pathset_options "/galaxy/data/job6.dataset" ["/data/a.txt"]) ∅
              (OSError "No such file or directory") eq_refl)).
Defined.

(** ** [hadoop_galaxy]: the configuration of a job *)

(** X10.  The environment [_configure_for_job] prepares for the tool is
    layered: a variable has the value the [tool_env] mapping of the
    configuration gives it; failing that, [HADOOP_HOME] and
    [HADOOP_CONF_DIR] have the values of the configuration keys of these
    names; failing that, the variable is as in the process environment.
    The environment the object held before plays no part, and when no
    configuration file is named the result is the process environment. *)
Theorem configure_env_layers (sys : hadoop_galaxy.Sys) (os_environ : gmap string string)
        (st : gmap string hadoop_galaxy.node) (self self' : hadoop_galaxy.HadoopGalaxy)
        (options : hadoop_galaxy.Options) :
  hadoop_galaxy._configure_for_job sys os_environ st self options = Ok self' ->
  (forall k : string,
      hadoop_galaxy._cmd_env self' !! k
      = match hadoop_galaxy.tool_env (hadoop_galaxy.self_conf self')
              ≫= (fun te : gmap string string => te !! k) with
        | Some v => Some v
        | None =>
            match (if String.eqb k "HADOOP_CONF_DIR"
                   then hadoop_galaxy.HADOOP_CONF_DIR (hadoop_galaxy.self_conf self')
                   else if String.eqb k "HADOOP_HOME"
                        then hadoop_galaxy.HADOOP_HOME (hadoop_galaxy.self_conf self')
                        else None) with
            | Some v => Some v
            | None => os_environ !! k
            end
        end)
  /\ (Py.truthy_opt (hadoop_galaxy.conf_file_of os_environ options) = false ->
      hadoop_galaxy._cmd_env self' = os_environ).
Proof.
  unfold hadoop_galaxy._configure_for_job.
  destruct (Py.truthy_opt (hadoop_galaxy.conf_file_of os_environ options)) eqn:Hf.
  - match goal with
    | |- context [mbind _ ?m] => destruct m as [cnf|e0]; simpl; [|done]
    end.
    match goal with
    | |- context [mbind _ ?m] => destruct m as [rn|e0]; simpl; [|done]
    end.
    intros [= <-]. simpl. split; [|done]. intros k.
    unfold hadoop_galaxy.copy_key.
    destruct (hadoop_galaxy.tool_env cnf) as [te|]; simpl.
    + rewrite lookup_union. destruct (te !! k) as [v|]; simpl.
      { by destruct (_ !! k). }
      rewrite (left_id_L None _).
      destruct (hadoop_galaxy.HADOOP_CONF_DIR cnf), (hadoop_galaxy.HADOOP_HOME cnf);
        rewrite ?lookup_insert; repeat case_decide; subst; simpl; try done;
        repeat match goal with
          | |- context [String.eqb ?a ?b] => destruct (String.eqb_spec a b); try done
          end.
    + destruct (hadoop_galaxy.HADOOP_CONF_DIR cnf), (hadoop_galaxy.HADOOP_HOME cnf);
        rewrite ?lookup_insert; repeat case_decide; subst; simpl; try done;
        repeat match goal with
          | |- context [String.eqb ?a ?b] => destruct (String.eqb_spec a b); try done
          end.
  - simpl.
    match goal with
    | |- context [mbind _ ?m] => destruct m as [rn|e0]; simpl; [|done]
    end.
    intros [= <-]. simpl. split; [|done]. intros k.
    repeat match goal with
      | |- context [String.eqb ?a ?b] => destruct (String.eqb_spec a b); try done
      end.
Qed.

(** X10 on a configuration that sets [HADOOP_HOME] twice: the value of
    [tool_env] wins, and [PATH] is inherited. *)
Lemma configure_env_layers_example :
  match hadoop_galaxy._configure_for_job examples.conf_sys examples.os_environ
          examples.conf_store examples.galaxy (examples.conf_options "/etc/hg.yaml") with
  | Ok self' =>
      hadoop_galaxy._cmd_env self' !! "HADOOP_HOME" = Some "/opt/hadoop-2"
      /\ hadoop_galaxy._cmd_env self' !! "JAVA_HOME" = Some "/opt/java"
      /\ hadoop_galaxy._cmd_env self' !! "PATH" = Some "/usr/bin"
  | Raise _ => False
  end.
Proof.
  destruct (hadoop_galaxy._configure_for_job examples.conf_sys examples.os_environ
              examples.conf_store examples.galaxy (examples.conf_options "/etc/hg.yaml"))
    as [self'|e] eqn:H.
  - pose proof (proj1 (configure_env_layers _ _ _ _ _ _ H)) as L.
    rewrite !L. clear L.
    vm_compute in H. injection H as <-. repeat split; reflexivity.
  - vm_compute in H. discriminate H.
Defined.

(** X11.  When a configuration file is named, by [--conf] or else by
    [HADOOP_GALAXY_CONF], and no regular file is there, the run ends in
    [sys.exit(1)]; when the file is there and [yaml.load] raises, the
    exception passes as it is (an [IOError] of the reading ends in
    [sys.exit(1)] too).  No environment is prepared in either case. *)
Theorem configure_conf_file_errors (sys : hadoop_galaxy.Sys)
        (os_environ : gmap string string) (st : gmap string hadoop_galaxy.node)
        (self : hadoop_galaxy.HadoopGalaxy) (options : hadoop_galaxy.Options)
        (f : string) :
  hadoop_galaxy.conf_file_of os_environ options = Some f ->
  f <> "" ->
  ((forall c, st !! f <> Some (hadoop_galaxy.File c)) ->
   hadoop_galaxy._configure_for_job sys os_environ st self options
   = Raise (SystemExit 1))
  /\ (forall text e,
        st !! f = Some (hadoop_galaxy.File text) ->
        hadoop_galaxy.yaml_load sys text = Raise e ->
        hadoop_galaxy._configure_for_job sys os_environ st self options
        = Raise (match e with IOError _ => SystemExit 1 | _ => e end)).
Proof.
  intros Hf Hne. unfold hadoop_galaxy._configure_for_job. rewrite Hf.
  apply truthy_true in Hne. simpl. rewrite Hne.
  unfold hadoop_galaxy.open_read. split.
  - intros Hno. destruct (st !! f) as [[c|]|]; simpl; try done.
    by destruct (Hno c).
  - intros text e -> ->. destruct e; reflexivity.
Qed.

(** X11 on a file that is missing and on one that does not parse. *)
Lemma configure_conf_file_errors_examples :
  hadoop_galaxy._configure_for_job examples.conf_sys examples.os_environ
    examples.conf_store examples.galaxy (examples.conf_options "/etc/none.yaml")
  = Raise (SystemExit 1)
  /\ hadoop_galaxy._configure_for_job examples.conf_sys examples.os_environ
       examples.conf_store examples.galaxy (examples.conf_options "/etc/bad.yaml")
     = Raise (YAMLError "could not parse").
Proof.
  split.
  - refine (proj1 (configure_conf_file_errors examples.conf_sys examples.os_environ
                     examples.conf_store examples.galaxy
                     (examples.conf_options "/etc/none.yaml") "/etc/none.yaml"
                     eq_refl _) _).
    + discriminate.
    + intros c H. vm_compute in H. discriminate H.
  - refine (proj2 (configure_conf_file_errors examples.conf_sys examples.os_environ
                     examples.conf_store examples.galaxy
                     (examples.conf_options "/etc/bad.yaml") "/etc/bad.yaml"
                     eq_refl _) "[" (YAMLError "could not parse") _ eq_refl).
    + discriminate.
    + reflexivity.
Defined.

(** ** [hadoop_galaxy]: what [execute] does before it launches the tool *)

Section prepare.

Import hadoop_galaxy.





End prepare.



(** ** [hadoop_galaxy]: the default data path keeps clear of the output file *)

Section default_path.

Import hadoop_galaxy.

Lemma string_app_cons (x : ascii) (a b : string) : String x a ++ b = String x (a ++ b).
Proof. reflexivity. Qed.

Lemma string_app_assoc (a b c : string) : a ++ (b ++ c) = (a ++ b) ++ c.
Proof.
  induction a as [|x a IH]; [reflexivity|].
  rewrite !string_app_cons. by rewrite IH.
Qed.

Lemma string_app_length (a b : string) :
  String.length (a ++ b) = String.length a + String.length b.
Proof.
  induction a as [|x a IH]; [reflexivity|].
  rewrite string_app_cons. simpl. by rewrite IH.
Qed.

Lemma startswith_length (s p : string) :
  Py.startswith s p = true -> String.length p <= String.length s.
Proof.
  revert s. induction p as [|b p IH]; intros [|a s]; simpl; try done; try lia.
  destruct (Ascii.eqb a b); [|done]. intros H. apply IH in H. lia.
Qed.

Lemma startswith_app (a b : string) : Py.startswith (a ++ b) a = true.
Proof.
  induction a as [|x a IH]; [reflexivity|].
  rewrite string_app_cons. simpl. by rewrite Ascii.eqb_refl.
Qed.

Lemma startswith_app_l (s a b : string) :
  Py.startswith s (a ++ b) = true -> Py.startswith s a = true.
Proof.
  revert s. induction a as [|x a IH]; intros s; [done|].
  rewrite string_app_cons. destruct s as [|y s]; simpl; [done|].
  destruct (Ascii.eqb y x); [apply IH|done].
Qed.

Lemma startswith_app_cons (s x : string) (c : ascii) (z : string) :
  Py.startswith s (x ++ String c z) = true ->
  Py.startswith s (x ++ String c "") = true.
Proof.
  revert s. induction x as [|a x IH]; intros s.
  - change ("" ++ String c z) with (String c z).
    change ("" ++ String c "") with (String c "").
    destruct s as [|b s]; simpl; [done|]. by destruct (Ascii.eqb b c).
  - rewrite !string_app_cons. destruct s as [|b s]; simpl; [done|].
    destruct (Ascii.eqb b a); [apply IH|done].
Qed.

Lemma rfind_None_startswith (c : ascii) (s : string) :
  Py.rfind c s = None -> Py.startswith s (String c "") = false.
Proof.
  destruct s as [|a s]; simpl; [done|].
  destruct (Py.rfind c s); [done|]. by destruct (Ascii.eqb a c).
Qed.

(** What follows the last [c] does not start with [c]. *)
Lemma rfind_from (c : ascii) (s : string) (i : nat) :
  Py.rfind c s = Some i -> Py.startswith (Py.from (S i) s) (String c "") = false.
Proof.
  revert i. induction s as [|a s IH]; intros i; simpl; [done|].
  destruct (Py.rfind c s) as [j|] eqn:Hj.
  - intros [= <-]. by apply IH.
  - destruct (Ascii.eqb a c); [|done]. intros [= <-].
    by apply rfind_None_startswith.
Qed.

Lemma basename_not_rooted (p : string) :
  Py.startswith (os_path.basename p) "/" = false.
Proof.
  unfold os_path.basename. destruct (Py.rfind "/" p) as [i|] eqn:Hi.
  - by apply rfind_from.
  - by apply rfind_None_startswith.
Qed.

(** The last [c] of a string that starts with [x] and a [c] stands at or
    after the end of [x]. *)
Lemma rfind_ge (c : ascii) (s x : string) :
  Py.startswith s (x ++ String c "") = true ->
  exists i, Py.rfind c s = Some i /\ String.length x <= i.
Proof.
  revert s. induction x as [|a x IH]; intros s.
  - change ("" ++ String c "") with (String c "").
    destruct s as [|b s]; simpl; [done|].
    destruct (Ascii.eqb b c) eqn:Hb; [|done]. intros _.
    destruct (Py.rfind c s) as [j|]; eexists; split; try done; lia.
  - rewrite string_app_cons. destruct s as [|b s]; simpl; [done|].
    destruct (Ascii.eqb b a); [|done]. intros H.
    destruct (IH s H) as (j & -> & Hj). exists (S j). split; [done|lia].
Qed.

Lemma startswith_upto_ge (s p : string) (n : nat) :
  Py.startswith s p = true -> String.length p <= n ->
  Py.startswith (Py.upto n s) p = true.
Proof.
  revert s n. induction p as [|b p IH]; intros s n; [done|].
  destruct s as [|a s]; simpl; [done|].
  destruct (Ascii.eqb a b) eqn:Hab; [|done]. intros H Hn.
  destruct n as [|n]; [lia|]. simpl. rewrite Hab. apply IH; [done|lia].
Qed.

Lemma repeat_startswith (y : string) (d : ascii) (z : string) (n : nat) :
  d <> "/"%char -> Py.startswith (Py.repeat "/" n) (y ++ String d z) = false.
Proof.
  intros Hd. revert n. induction y as [|a y IH]; intros n.
  - change ("" ++ String d z) with (String d z).
    destruct n as [|n]; cbn [Py.startswith Py.repeat]; [done|].
    destruct (Ascii.eqb_spec "/" d) as [E|E]; [by destruct Hd|done].
  - rewrite string_app_cons. destruct n as [|n]; cbn [Py.startswith Py.repeat]; [done|].
    destruct (Ascii.eqb "/" a); [apply IH|done].
Qed.

Lemma startswith_rstrip_keep (c : ascii) (h y : string) (d : ascii) :
  d <> c -> Py.startswith h (y ++ String d "") = true ->
  Py.startswith (Py.rstrip c h) (y ++ String d "") = true.
Proof.
  intros Hd. revert h. induction y as [|a y IH]; intros h.
  - change ("" ++ String d "") with (String d "").
    destruct h as [|b h]; simpl; [done|].
    destruct (Ascii.eqb_spec b d) as [->|]; [|done]. intros _.
    destruct (Py.rstrip c h); simpl.
    + destruct (Ascii.eqb_spec d c); [done|]. simpl. by rewrite Ascii.eqb_refl.
    + by rewrite Ascii.eqb_refl.
  - rewrite string_app_cons. destruct h as [|b h]; simpl; [done|].
    destruct (Ascii.eqb_spec b a) as [->|]; [|done]. intros H.
    specialize (IH h H).
    destruct (Py.rstrip c h) as [|b' r] eqn:Hr.
    + destruct y; done.
    + simpl. rewrite Ascii.eqb_refl. exact IH.
Qed.

Lemma endswith_app_last (s : string) (d c : ascii) :
  Py.endswith (s ++ String d "") c = Ascii.eqb d c.
Proof.
  induction s as [|a s IH]; [reflexivity|].
  rewrite string_app_cons. simpl.
  destruct (s ++ String d "") eqn:E; [by destruct s|]. exact IH.
Qed.

(** The directory of a path keeps every prefix of the path that is followed
    by a slash and does not end with one. *)
Lemma dirname_keeps_prefix (out y : string) (d : ascii) (z : string) :
  d <> "/"%char ->
  Py.startswith out ((y ++ String d "") ++ String "/" z) = true ->
  Py.startswith (os_path.dirname out) (y ++ String d "") = true.
Proof.
  intros Hd H.
  pose proof (startswith_app_l _ _ _ H) as Hx.
  apply startswith_app_cons in H.
  destruct (rfind_ge _ _ _ H) as (i & Hi & Hle).
  unfold os_path.dirname. rewrite Hi.
  assert (Hh : Py.startswith (Py.upto (S i) out) (y ++ String d "") = true).
  { apply startswith_upto_ge; [done|lia]. }
  set (head := Py.upto (S i) out) in *.
  assert (Ht : Py.truthy head = true).
  { destruct head; [|done]. by destruct y. }
  assert (Hs : String.eqb head (Py.repeat "/" (Py.len head)) = false).
  { apply String.eqb_neq. intros E. rewrite E in Hh.
    by rewrite repeat_startswith in Hh. }
  rewrite Ht, Hs. simpl. by apply startswith_rstrip_keep.
Qed.

(** The default data path is a part [y] that holds the directory of the
    output file and [hadoop_output], a slash, and the base name. *)
Lemma default_data_path_form (out : string) :
  exists y,
    os_path.join (os_path.join (os_path.dirname out) HadoopOutputDirName)
      (os_path.basename out)
    = (y ++ String "t" "") ++ String "/" (os_path.basename out)
    /\ String.length (os_path.dirname out) + 12 <= String.length y.
Proof.
  set (D := os_path.dirname out).
  assert (Hx : exists y,
             os_path.join D HadoopOutputDirName = y ++ String "t" ""
             /\ String.length D + 12 <= String.length y).
  { unfold os_path.join, HadoopOutputDirName.
    change (Py.startswith "hadoop_output" "/") with false. cbv iota.
    destruct (String.eqb D "" || Py.endswith D "/").
    - exists (D ++ "hadoop_outpu"). split.
      + by rewrite <- string_app_assoc.
      + rewrite string_app_length. simpl. lia.
    - exists (D ++ "/hadoop_outpu"). split.
      + by rewrite <- string_app_assoc.
      + rewrite string_app_length. simpl. lia. }
  destruct Hx as (y & -> & Hy). exists y. split; [|done].
  unfold os_path.join.
  change (Py.startswith (os_path.basename out) "/")
    with (Py.startswith (os_path.basename out) (String "/" "")).
  rewrite basename_not_rooted, endswith_app_last.
  replace (String.eqb (y ++ String "t" "") "") with false by (by destruct y).
  reflexivity.
Qed.

(** With the default data directory, the declared output file is neither
    the data output path nor below it. *)
Lemma default_data_path_apart_aux (os_environ : gmap string string) (options : Options) :
  Py.truthy_opt (output_data_dir options) = false ->
  Py.truthy_opt (os_environ !! EnvOutputDataDir) = false ->
  at_or_below (gen_data_output_path os_environ options None) (output options) = false
  /\ gen_data_output_path os_environ options None <> output options.
Proof.
  intros Ho He. unfold gen_data_output_path. rewrite Ho, He.
  destruct (default_data_path_form (output options)) as (y & -> & Hy).
  assert (Hno : forall z,
             Py.startswith (output options)
               ((y ++ String "t" "") ++ String "/" z) = false).
  { intros z. destruct (Py.startswith _ _) eqn:E; [|done].
    apply dirname_keeps_prefix in E; [|done].
    apply startswith_length in E. rewrite string_app_length in E. simpl in E. lia. }
  split.
  - unfold at_or_below. apply orb_false_iff. split.
    + apply String.eqb_neq. intros E.
      specialize (Hno (os_path.basename (output options))).
      rewrite <- E in Hno. by rewrite startswith_refl in Hno.
    + destruct (Py.endswith _ "/"); [apply Hno|].
      rewrite <- string_app_assoc. rewrite string_app_cons. apply Hno.
  - intros E. specialize (Hno (os_path.basename (output options))).
    rewrite E in Hno. by rewrite startswith_refl in Hno.
Qed.

End default_path.

(** X13.  With the default data directory, that is with neither
    [--output-data-dir] nor [HADOOP_GALAXY_DATA_DIR], the data output path
    is never the declared output file, and the declared output file never
    lies below it, whatever the declared output path is. *)
Theorem default_data_path_apart (os_environ : gmap string string)
        (options : hadoop_galaxy.Options) :
  Py.truthy_opt (hadoop_galaxy.output_data_dir options) = false ->
  Py.truthy_opt (os_environ !! hadoop_galaxy.EnvOutputDataDir) = false ->
  hadoop_galaxy.at_or_below (hadoop_galaxy.gen_data_output_path os_environ options None)
    (hadoop_galaxy.output options) = false
  /\ hadoop_galaxy.gen_data_output_path os_environ options None
     <> hadoop_galaxy.output options.
Proof. apply default_data_path_apart_aux. Qed.

(** X13 on an output path that ends with slashes. *)
Lemma default_data_path_apart_example :
  hadoop_galaxy.gen_data_output_path examples.os_environ
    (examples.options "/galaxy/data/job6.dataset" "/galaxy/data//" None) None
  <> "/galaxy/data//".
Proof.
  exact (proj2 (default_data_path_apart examples.os_environ
                  (examples.options "/galaxy/data/job6.dataset" "/galaxy/data//" None)
                  eq_refl eq_refl)).
Defined.

(** ** [hadoop_galaxy]: the output file of a run *)

Section run_store.

Import hadoop_galaxy.



End run_store.





(** X16.  When [run] returns, the job was configured and the declared
    output file holds what the output pathset writes: the pathset of one
    entry, the data output path computed in the environment the job was
    configured with, so with [HADOOP_GALAXY_DATA_DIR] of [tool_env] when the
    configuration file sets it. *)
Theorem run_success_writes_output (sys : hadoop_galaxy.Sys)
        (os_environ : gmap string string) (self : hadoop_galaxy.HadoopGalaxy)
        (options : hadoop_galaxy.Options) (st st' : gmap string hadoop_galaxy.node) :
  hadoop_galaxy.run sys os_environ self options st = (Ok tt, st') ->
  exists self',
    hadoop_galaxy._configure_for_job sys os_environ st self options = Ok self'
    /\ st' !! hadoop_galaxy.output options
       = Some (hadoop_galaxy.File
                 (hadoop_galaxy.pathset_write
                    (hadoop_galaxy.FilePathset
                       [hadoop_galaxy.gen_data_output_path
                          (hadoop_galaxy._cmd_env self') options None]))).
Proof.
  unfold hadoop_galaxy.run.
  destruct (hadoop_galaxy._configure_for_job sys os_environ st self options)
    as [self'|e0]; [|done].
  cbv zeta.
  destruct (hadoop_galaxy.open_read st (hadoop_galaxy.input options))
    as [text|e0]; [|done].
  unfold hadoop_galaxy.run_try.
  destruct (hadoop_galaxy._runner self') as [r0|]; [|done].
  unfold hadoop_galaxy.set_output. simpl.
  match goal with
  | |- context [hadoop_galaxy.execute ?a ?b ?c ?d ?f] =>
      destruct (hadoop_galaxy.execute a b c d f) as [[u|e1] st1]; [|done]
  end.
  match goal with
  | |- context [hadoop_galaxy.open_write ?a ?b ?c] =>
      destruct (open_write_cases a b c) as [[e2 Hw]|Hw]; rewrite Hw; [done|]
  end.
  intros [= <-]. exists self'. split; [done|]. by rewrite lookup_insert_eq.
Qed.

(** X16 on a job whose configuration file names the data directory
    [/scratch] in [tool_env]: the output dataset names the directory of the
    job under [/scratch], which the tool created. *)
Lemma run_success_writes_output_example :
  (hadoop_galaxy.run (examples.data_dir_sys examples.working_tool) examples.os_environ
     examples.galaxy (examples.conf_options "/etc/scratch.yaml")
     examples.data_dir_store).2
  !! "/galaxy/data/job7.dataset"
  = Some (hadoop_galaxy.File ("/scratch/job7.dataset" ++ examples.nl)).
Proof.
  destruct (hadoop_galaxy.run (examples.data_dir_sys examples.working_tool)
              examples.os_environ examples.galaxy
              (examples.conf_options "/etc/scratch.yaml") examples.data_dir_store)
    as [[[]|e] st'] eqn:Hrun.
  - destruct (run_success_writes_output _ _ _ _ _ _ Hrun) as (self' & Hc & Hout).
    refine (eq_trans Hout _).
    vm_compute in Hc. injection Hc as <-. vm_compute. reflexivity.
  - vm_compute in Hrun. discriminate Hrun.
Defined.

(** The environment of the job is the process environment: a data
    directory that only [tool_env] of the configuration file names is the
    one [run] uses.  Here it is the directory of the output dataset, the
    tool fails, and the dataset is gone, although neither the command line
    nor the process environment the adapter was started in names a data
    directory. *)
Example run_tool_env_data_dir :
  hadoop_galaxy.gen_data_output_path examples.os_environ
    (examples.conf_options "/etc/data.yaml") None
  = "/galaxy/data/hadoop_output/job7.dataset"
  /\ hadoop_galaxy.run (examples.data_dir_sys examples.failing_tool) examples.os_environ
       examples.galaxy (examples.conf_options "/etc/data.yaml") examples.data_dir_store
     = (Raise (RuntimeError "tool exit code: 1"),
        delete "/galaxy/data/job7.dataset" examples.data_dir_store).
Proof. split; vm_compute; reflexivity. Qed.

(** X17.  Once the job is configured and the input pathset is read, no
    [CalledProcessError] leaves [run]: the failure of the tool is raised as
    another exception. *)
Theorem run_hides_CalledProcessError (sys : hadoop_galaxy.Sys)
        (os_environ : gmap string string) (self self' : hadoop_galaxy.HadoopGalaxy)
        (options : hadoop_galaxy.Options) (st st' : gmap string hadoop_galaxy.node)
        (text : string) (e : exn) :
  hadoop_galaxy._configure_for_job sys os_environ st self options = Ok self' ->
  hadoop_galaxy.open_read st (hadoop_galaxy.input options) = Ok text ->
  hadoop_galaxy.run sys os_environ self options st = (Raise e, st') ->
  forall rc, e <> CalledProcessError rc.
Proof.
  intros Hc Hi. unfold hadoop_galaxy.run. rewrite Hc, Hi.
  destruct (hadoop_galaxy.run_try _ _ _ _ _ _ _) as [[u|e0] st1]; [done|].
  intros [= <- _] rc. unfold hadoop_galaxy.run_handler.
  destruct e0; try done.
  destruct (returncode <? 0)%Z; [done|]. by destruct (0 <? returncode)%Z.
Qed.

(** X17 on a tool that is killed by signal 9: the message gives the return
    code, which is negative. *)
Lemma run_hides_CalledProcessError_signal :
  (hadoop_galaxy.run
     (examples.sys (fun _ _ s => (Raise (CalledProcessError (-9)), s)))
     examples.os_environ examples.galaxy
     (examples.options "/galaxy/data/job6.dataset" "/galaxy/data/job7.dataset" None)
     examples.galaxy_store).1
  = Raise (RuntimeError "tool was terminated by signal -9")
  /\ forall rc, RuntimeError "tool was terminated by signal -9" <> CalledProcessError rc.
Proof.
  assert (Hrun : exists st',
             hadoop_galaxy.run
               (examples.sys (fun _ _ s => (Raise (CalledProcessError (-9)), s)))
               examples.os_environ examples.galaxy
               (examples.options "/galaxy/data/job6.dataset"
                                 "/galaxy/data/job7.dataset" None)
               examples.galaxy_store
             = (Raise (RuntimeError "tool was terminated by signal -9"), st')).
  { eexists. vm_compute. reflexivity. }
  destruct Hrun as [st' Hrun]. split; [by rewrite Hrun|].
  refine (run_hides_CalledProcessError _ _ _ _ _ _ _ _ _ _ _ Hrun);
    vm_compute; reflexivity.
Defined.

(** X18.  The three setters of a runner touch different attributes and can
    be called in any order: after the options, the input pathset and a
    one-entry output pathset are set, in each of the six orders of the three
    calls, [command] gives the resolved executable, the options, the entries
    of the input pathset in their order, unexpanded, and the one entry of
    the output pathset. *)
Theorem runner_setters_compose (sys : hadoop_galaxy.Sys)
        (os_environ : gmap string string) (r : hadoop_galaxy.HadoopToolRunner)
        (env : option (gmap string string)) (args : list string)
        (inp outp : hadoop_galaxy.Pathset) (exe full out : string) :
  hadoop_galaxy.executable r = Some exe ->
  hadoop_galaxy.get_abs_executable_path sys exe (hadoop_galaxy.env_or env os_environ)
  = Ok full ->
  hadoop_galaxy.paths outp = [out] ->
  let argv := Ok ([full] ++ args ++ hadoop_galaxy.paths inp ++ [out])%list in
  (* parse_args, set_input, set_output *)
  (hadoop_galaxy.set_output
     (hadoop_galaxy.set_input (hadoop_galaxy.parse_args r args) inp) outp
   ≫= fun r' => hadoop_galaxy.command sys os_environ r' env)
  = argv
  (* set_output, set_input, parse_args *)
  /\ (hadoop_galaxy.set_output r outp
      ≫= fun r' =>
           hadoop_galaxy.command sys os_environ
             (hadoop_galaxy.parse_args (hadoop_galaxy.set_input r' inp) args) env)
     = argv
  (* set_input, parse_args, set_output *)
  /\ (hadoop_galaxy.set_output
        (hadoop_galaxy.parse_args (hadoop_galaxy.set_input r inp) args) outp
      ≫= fun r' => hadoop_galaxy.command sys os_environ r' env)
     = argv
  (* parse_args, set_output, set_input *)
  /\ (hadoop_galaxy.set_output (hadoop_galaxy.parse_args r args) outp
      ≫= fun r' =>
           hadoop_galaxy.command sys os_environ (hadoop_galaxy.set_input r' inp) env)
     = argv
  (* set_input, set_output, parse_args *)
  /\ (hadoop_galaxy.set_output (hadoop_galaxy.set_input r inp) outp
      ≫= fun r' =>
           hadoop_galaxy.command sys os_environ (hadoop_galaxy.parse_args r' args) env)
     = argv
  (* set_output, parse_args, set_input *)
  /\ (hadoop_galaxy.set_output r outp
      ≫= fun r' =>
           hadoop_galaxy.command sys os_environ
             (hadoop_galaxy.set_input (hadoop_galaxy.parse_args r' args) inp) env)
     = argv.
Proof.
  intros Hexe Hfull Hout argv. unfold argv.
  unfold hadoop_galaxy.set_output, hadoop_galaxy.pathset_len, hadoop_galaxy.iter_next.
  rewrite Hout. simpl. unfold hadoop_galaxy.command. simpl.
  rewrite Hexe. simpl. rewrite Hfull. done.
Qed.

(** X18 on a pattern, which is passed on as it is. *)
Lemma runner_setters_compose_example :
  (hadoop_galaxy.set_output
     (hadoop_galaxy.set_input
        (hadoop_galaxy.parse_args (hadoop_galaxy.HadoopToolRunner_init (Some "tool"))
           ["-q"])
        (hadoop_galaxy.FilePathset ["hdfs://nn/data/*.txt"; "hdfs://nn/b.txt"]))
     (hadoop_galaxy.FilePathset ["/out"])
   ≫= fun r' =>
        hadoop_galaxy.command (examples.sys examples.working_tool) examples.os_environ
          r' None)
  = Ok ["/usr/bin/tool"; "-q"; "hdfs://nn/data/*.txt"; "hdfs://nn/b.txt"; "/out"].
Proof.
  exact (proj1 (runner_setters_compose (examples.sys examples.working_tool)
                  examples.os_environ (hadoop_galaxy.HadoopToolRunner_init (Some "tool"))
                  None ["-q"]
                  (hadoop_galaxy.FilePathset ["hdfs://nn/data/*.txt"; "hdfs://nn/b.txt"])
                  (hadoop_galaxy.FilePathset ["/out"]) "tool" "/usr/bin/tool" "/out"
                  eq_refl eq_refl eq_refl)).
Defined.

(** ** [make_pathset]: the URL of a validated URI *)

(** X19.  The URL of a URI the constructor accepted drops none of its
    attributes: it is the scheme, [://], the host and the path, or, when the
    scheme is empty, the bare path of a URI whose host is empty too. *)
Theorem geturl_keeps_host (s h p : string) (u : make_pathset.Uri) :
  make_pathset.Uri_init s h p = Ok u ->
  (s <> "" /\ make_pathset.geturl u = s ++ "://" ++ h ++ p)
  \/ (s = "" /\ h = "" /\ make_pathset.geturl u = p).
Proof.
  intros Hu. pose proof (Uri_init_cases s h p) as Hc.
  pose proof (Uri_init_ok_fields _ _ _ _ Hu) as ->.
  unfold props.rejected in Hc. unfold make_pathset.geturl. simpl.
  destruct s as [|a s]; simpl in *.
  - right. destruct h as [|b h]; simpl in *; [done|].
    destruct Hc as [msg Hc]. congruence.
  - left. done.
Qed.

(** X19 on a path without scheme and on an HDFS pattern. *)
Lemma geturl_keeps_host_examples :
  make_pathset.geturl
    {| make_pathset.scheme := ""; make_pathset.netloc := "";
       make_pathset.path := "data/x" |} = "data/x"
  /\ make_pathset.geturl examples.pattern_uri = "hdfs://nn:8020/data/*.txt".
Proof.
  split.
  - destruct (geturl_keeps_host "" "" "data/x" _ eq_refl) as [[H _]|(_ & _ & H)];
      [done|exact H].
  - destruct (geturl_keeps_host "hdfs" "nn:8020" "/data/*.txt" _ eq_refl)
      as [[_ H]|(H & _)]; [exact H|discriminate H].
Defined.

(** ** [hadoop_galaxy]: an explicit name that is absolute *)

(** X20.  An explicit name that starts with a slash is the whole result of
    [gen_data_output_path]: the option, the environment and the declared
    output path are not looked at, as [os.path.join] drops what precedes an
    absolute component. *)
Theorem gen_data_output_path_absolute_name (os_environ : gmap string string)
        (options : hadoop_galaxy.Options) (name : string) :
  os_path.isabs name = true ->
  hadoop_galaxy.gen_data_output_path os_environ options (Some name) = name.
Proof.
  intros Hn. unfold hadoop_galaxy.gen_data_output_path, os_path.join.
  unfold os_path.isabs in Hn.
  assert (Ht : Py.truthy name = true) by (by destruct name).
  rewrite Ht. by rewrite Hn.
Qed.

(** X20 with a data directory given. *)
Lemma gen_data_output_path_absolute_name_example :
  hadoop_galaxy.gen_data_output_path examples.os_environ
    (examples.options "/d/in.pathset" "/d/out.pathset" (Some "/x")) (Some "/tmp/job")
  = "/tmp/job".
Proof.
  exact (gen_data_output_path_absolute_name examples.os_environ
           (examples.options "/d/in.pathset" "/d/out.pathset" (Some "/x")) "/tmp/job"
           eq_refl).
Defined.
